(** * tidy-notes: a shallow embedding of [main.py]

    The program walks over the markdown notes of a folder and makes sure
    that each of them carries the front-matter keys [Created], [Title] and
    [Description].  This file embeds the functions of [main.py] and proves
    the properties that its specification states about them.

    Conventions of the embedding.
    - A Python [str] is a list of Unicode code points ([pystr]).
    - A Python [dict] is an association list in insertion order.
    - Everything the program imports ([pathlib], [datetime], [frontmatter],
      [agents], the Unicode tables behind [str.title]) is gathered in one
      record [Env]; the program is a function of it.
    - Code that can raise runs in the monad [M]: a state (file system,
      calls made to the agent runner, lines printed) and a result that is
      either a value or a raised exception. *)

From Stdlib Require Import String Ascii ZArith NArith Lia List Bool Decimal.
From stdpp Require Import base option list gmap.
Import ListNotations.

Local Open Scope N_scope.

(** ** Python strings *)

Abbreviation char := N (only parsing).
Abbreviation pystr := (list N) (only parsing).

(** A literal of the source, as code points. *)
Definition lit (s : string) : pystr :=
  map N_of_ascii (list_ascii_of_string s).

Arguments lit : simpl never.

Definition LF : N := 10.

(** [s[:n]] for a non-negative [n]. *)
Definition slice_to (n : nat) (s : pystr) : pystr := firstn n s.

(** [s.replace(old, new)] where [old] and [new] are one character each. *)
Definition replace (old new : N) (s : pystr) : pystr :=
  map (fun c => if c =? old then new else c) s.

(** *** ASCII case mapping *)

Definition is_ascii (c : N) : bool := c <? 128.
Definition ascii_isupper (c : N) : bool := (65 <=? c) && (c <=? 90).
Definition ascii_islower (c : N) : bool := (97 <=? c) && (c <=? 122).
Definition ascii_isalpha (c : N) : bool := ascii_isupper c || ascii_islower c.
Definition ascii_toupper (c : N) : N := if ascii_islower c then c - 32 else c.
Definition ascii_tolower (c : N) : N := if ascii_isupper c then c + 32 else c.

(** [Py_UNICODE_ISSPACE]: the characters that [str.strip()] removes. *)
Definition is_space (c : N) : bool :=
  ((9 <=? c) && (c <=? 13)) || ((28 <=? c) && (c <=? 32))
  || (c =? 133) || (c =? 160) || (c =? 5760)
  || ((8192 <=? c) && (c <=? 8202))
  || (c =? 8232) || (c =? 8233) || (c =? 8239) || (c =? 8287) || (c =? 12288).

Fixpoint lstrip (s : pystr) : pystr :=
  match s with
  | c :: s' => if is_space c then lstrip s' else s
  | [] => []
  end.

Definition rstrip (s : pystr) : pystr := rev (lstrip (rev s)).

(** [s.strip()] *)
Definition strip (s : pystr) : pystr := rstrip (lstrip s).

(** *** Decimal numerals *)

Fixpoint uint_chars (d : Decimal.uint) : pystr :=
  match d with
  | Nil => []
  | D0 d => 48 :: uint_chars d
  | D1 d => 49 :: uint_chars d
  | D2 d => 50 :: uint_chars d
  | D3 d => 51 :: uint_chars d
  | D4 d => 52 :: uint_chars d
  | D5 d => 53 :: uint_chars d
  | D6 d => 54 :: uint_chars d
  | D7 d => 55 :: uint_chars d
  | D8 d => 56 :: uint_chars d
  | D9 d => 57 :: uint_chars d
  end.

(** [str(n)] for a natural number. *)
Definition str_N (n : N) : pystr := uint_chars (N.to_uint n).

(** [str(z)] for an [int]. *)
Definition str_Z (z : Z) : pystr :=
  match z with
  | Zneg p => 45 :: str_N (Npos p)
  | _ => str_N (Z.to_N z)
  end.

(** ["%0<w>d"] on a natural number. *)
Definition zero_pad (w : nat) (n : N) : pystr :=
  let s := str_N n in repeat 48 (w - length s)%nat ++ s.

(** ** Python values found in a metadata mapping

    YAML front matter loads to strings, but also to [None], booleans,
    integers and dates.  Every other object (float, list, nested mapping,
    [datetime], ...) is kept as [VOther], abstracted to the two observations
    the program makes of a value: its truth value and its [str()]. *)

Inductive value : Type :=
| VNone
| VBool (b : bool)
| VInt (z : Z)
| VStr (s : pystr)
| VDate (year month day : N)
| VOther (truth : bool) (repr : pystr).

#[global] Instance value_eq_dec : EqDecision value.
Proof. solve_decision. Defined.

(** [bool(v)], that is [not (not v)]. *)
Definition truthy (v : value) : bool :=
  match v with
  | VNone => false
  | VBool b => b
  | VInt z => negb (Z.eqb z 0)
  | VStr s => match s with [] => false | _ => true end
  | VDate _ _ _ => true
  | VOther t _ => t
  end.

(** [isinstance(v, str)] *)
Definition is_str (v : value) : bool :=
  match v with VStr _ => true | _ => false end.

(** [date.isoformat()], which is [str()] of a date. *)
Definition isoformat (y m d : N) : pystr :=
  zero_pad 4 y ++ lit "-" ++ zero_pad 2 m ++ lit "-" ++ zero_pad 2 d.

(** [str(v)] *)
Definition py_str (v : value) : pystr :=
  match v with
  | VNone => lit "None"
  | VBool true => lit "True"
  | VBool false => lit "False"
  | VInt z => str_Z z
  | VStr s => s
  | VDate y m d => isoformat y m d
  | VOther _ r => r
  end.

(** ** [dict]: an insertion-ordered mapping with string keys

    The keys of front matter are strings; a YAML key of another type is
    not modelled. *)

Abbreviation dict := (list (list N * value)) (only parsing).

(** [d.get(k)], [None] (here: Rocq's) when the key is absent. *)
Fixpoint dict_lookup (d : dict) (k : pystr) : option value :=
  match d with
  | [] => None
  | (k', v) :: d' => if decide (k' = k) then Some v else dict_lookup d' k
  end.

(** [d.get(k)] and [d.get(k, None)] as Python sees them. *)
Definition dict_get (d : dict) (k : pystr) : value :=
  default VNone (dict_lookup d k).

(** [d[k] = v]: an existing key keeps its place, a new one goes last. *)
Fixpoint dict_set (d : dict) (k : pystr) (v : value) : dict :=
  match d with
  | [] => [(k, v)]
  | (k', v') :: d' =>
      if decide (k' = k) then (k', v) :: d' else (k', v') :: dict_set d' k v
  end.

Definition dict_keys (d : dict) : list pystr := map fst d.

(** ** Data of the program *)

Abbreviation Path := (list N) (only parsing).

(** What [strftime('%Y-%m-%d')] reads of a [datetime]. *)
Record datetime : Type := mk_datetime { year : N; month : N; day : N }.

(** [class FileData(BaseModel)] *)
Record FileData : Type := mk_FileData {
  text : pystr;
  path : Path;
  creation_date : datetime
}.

(** [frontmatter.Post] *)
Record Post : Type := mk_Post {
  metadata : dict;
  content : pystr
}.

#[global] Instance Post_eq_dec : EqDecision Post.
Proof. solve_decision. Defined.

(** [agents.Agent(name=..., instructions=..., model=...)] *)
Record Agent : Type := mk_Agent {
  name : pystr;
  instructions : pystr;
  model : pystr
}.

(** One call [Runner.run(agent, prompt)]. *)
Definition call : Type := Agent * pystr.

(** ** Exceptions

    Only classes below [Exception] are modelled: [process_file] tells
    [FileNotFoundError] from every other one.  [KeyboardInterrupt] and the
    other classes outside [Exception] are not part of the model. *)

Inductive exn : Type :=
| FileNotFoundError (msg : pystr)
| NotADirectoryError (msg : pystr)
| OtherException (msg : pystr).

(** [str(e)] *)
Definition exn_msg (e : exn) : pystr :=
  match e with
  | FileNotFoundError m => m
  | NotADirectoryError m => m
  | OtherException m => m
  end.

Inductive result (A : Type) : Type :=
| Ok (a : A)
| Raise (e : exn).
Arguments Ok {A} a.
Arguments Raise {A} e.

(** ** The file system *)

(** [os.stat_result], the two fields read by [get_file]; [st_birthtime] is
    [None] where the platform has no such attribute.  Timestamps are in
    seconds. *)
Record stat_result : Type := mk_stat {
  st_birthtime : option Z;
  st_ctime : Z
}.

(** A directory entry.  [payload] is what [open('r', encoding='utf-8')]
    followed by [read()] gives: the decoded text, or the exception raised
    (a directory, a permission, bytes that are not UTF-8).  [write_error]
    is the exception that [open('w')] raises on it, if any.  Files are seen
    as text: encoding, the translation of line ends, and a write that
    breaks off half-way are below this model. *)
Record node : Type := mk_node {
  stat : result stat_result;
  payload : result pystr;
  write_error : option exn
}.

Abbreviation filesystem := (gmap (list N) node) (only parsing).

(** ** The environment: what the program imports *)

Record Env : Type := mk_Env {
  (** [Path.stem] *)
  stem : Path -> pystr;
  (** [str(path)], used in messages *)
  path_str : Path -> pystr;
  (** [datetime.fromtimestamp], in the local time zone *)
  fromtimestamp : Z -> datetime;
  (** The Unicode tables behind [str.title] outside ASCII:
      [_PyUnicode_IsCased], [_PyUnicode_ToTitleFull] and [lower_ucs4]; the
      last one sees the whole string and the position (final sigma).  A
      mapping gives between one and three characters. *)
  ucd_is_cased : N -> bool;
  ucd_to_title_full : N -> N * list N;
  ucd_lower : pystr -> nat -> N -> N * list N;
  (** [frontmatter.loads] and [frontmatter.dumps] *)
  frontmatter_loads : pystr -> result Post;
  frontmatter_dumps : Post -> result pystr;
  (** [asyncio.run(Runner.run(agent, prompt)).final_output]; the answer
      may depend on the calls made before. *)
  runner_run : list call -> Agent -> pystr -> result pystr;
  (** [folder.glob("*.md")] *)
  glob_md : gmap (list N) node -> Path -> list Path;
  (** [folder.is_dir()] *)
  is_dir : gmap (list N) node -> Path -> bool;
  (** the [stat] of a file that [open('w')] has just created *)
  created_stat : Path -> result stat_result
}.

(** ** The monad of the program *)

Record World : Type := mk_World {
  fs : gmap (list N) node;
  calls : list call;
  stdout : list (list N)
}.

Definition M (A : Type) : Type := World -> result A * World.

#[global] Instance M_ret : MRet M := fun A a w => (Ok a, w).

#[global] Instance M_bind : MBind M := fun A B f m w =>
  match m w with
  | (Ok a, w') => f a w'
  | (Raise e, w') => (Raise e, w')
  end.

(** [raise e] *)
Definition raise {A : Type} (e : exn) : M A := fun w => (Raise e, w).

(** A library call that returns or raises, and has no other effect. *)
Definition lift {A : Type} (r : result A) : M A := fun w => (r, w).

(** [try: body  except Exception as e: handler(e)] *)
Definition try_except {A : Type} (body : M A) (handler : exn -> M A) : M A :=
  fun w =>
    match body w with
    | (Ok a, w') => (Ok a, w')
    | (Raise e, w') => handler e w'
    end.

(** [for x in l: body(x)] *)
Fixpoint for_each {A : Type} (l : list A) (body : A -> M unit) : M unit :=
  match l with
  | [] => mret tt
  | x :: l' => body x ;; for_each l' body
  end.

(** [print(line)] *)
Definition print (line : pystr) : M unit := fun w =>
  (Ok tt, mk_World (fs w) (calls w) (stdout w ++ [line])).

(** The keys that the program knows. *)
Definition Created : pystr := lit "Created".
Definition Title : pystr := lit "Title".
Definition Description : pystr := lit "Description".

Section Program.

Variable env : Env.

(** *** [str.title()] *)

Definition is_cased (c : N) : bool :=
  if is_ascii c then ascii_isalpha c else ucd_is_cased env c.

Definition to_title_full (c : N) : pystr :=
  if is_ascii c then [ascii_toupper c]
  else let '(c1, cs) := ucd_to_title_full env c in c1 :: cs.

Definition lower_ucs4 (data : pystr) (i : nat) (c : N) : pystr :=
  if is_ascii c then [ascii_tolower c]
  else let '(c1, cs) := ucd_lower env data i c in c1 :: cs.

(** The loop of [do_title]: [rest] is [data] from position [i] on. *)
Fixpoint do_title (data : pystr) (i : nat) (previous_is_cased : bool)
    (rest : pystr) : pystr :=
  match rest with
  | [] => []
  | c :: rest' =>
      (if previous_is_cased then lower_ucs4 data i c else to_title_full c)
        ++ do_title data (S i) (is_cased c) rest'
  end.

Definition title (s : pystr) : pystr := do_title s 0 false s.

(** *** [get_file] *)

Definition get_file (file_path : Path) : M FileData := fun w =>
  match fs w !! file_path with
  | None =>
      (Raise (FileNotFoundError
                (lit "File not found: " ++ path_str env file_path)), w)
  | Some n =>
      match stat n with
      | Raise e => (Raise e, w)
      | Ok stat_info =>
          let creation_time :=
            match st_birthtime stat_info with
            | Some t => t
            | None => st_ctime stat_info
            end in
          let creation_date := fromtimestamp env creation_time in
          match payload n with
          | Raise e => (Raise e, w)
          | Ok text => (Ok (mk_FileData text file_path creation_date), w)
          end
      end
  end.

(** *** [describe_text] *)

Definition describe_instructions : pystr :=
  lit "You describe obsidian notes to capture the essence of their purpose, focusing on the main points and return a succinct file description under 100 characters. You should never start the description with the words 'File Description:' or use markdown formatting.s ".

Definition describe_prompt (text title : pystr) : pystr :=
  lit "Please describe the note titled '" ++ title
    ++ lit "' with the following content:" ++ [LF; LF] ++ slice_to 2000 text.

Definition summarizer (instructions : pystr) : Agent :=
  mk_Agent (lit "Summarizer") instructions (lit "gpt-4o-mini").

(** [asyncio.run(Runner.run(agent, prompt))]: the call is recorded, whether
    it returns or raises. *)
Definition run_agent (agent : Agent) (prompt : pystr) : M pystr := fun w =>
  (runner_run env (calls w) agent prompt,
   mk_World (fs w) (calls w ++ [(agent, prompt)]) (stdout w)).

Definition describe_text (text title : pystr) : M pystr :=
  let instructions := describe_instructions in
  let prompt := describe_prompt text title in
  let agent := summarizer instructions in
  run_agent agent prompt.

(** *** [summarize_text] (not called by the program) *)

Definition summarize_instructions : pystr :=
  lit "You summarize text in obsidian notes, focusing on the main points and return a summary under 100 characters. ".

Definition summarize_prompt (text title : pystr) : pystr :=
  lit "Please summarize the note titled '" ++ title
    ++ lit "' with the following content:" ++ [LF; LF] ++ slice_to 2000 text.

Definition summarize_text (text title : pystr) : M pystr :=
  run_agent (summarizer summarize_instructions) (summarize_prompt text title).

(** *** [create_title] *)

Definition create_title (file_data : FileData) : pystr :=
  replace 95 32 (title (stem env (path file_data))).

(** *** [process_post] *)

(** [creation_date.strftime('%Y-%m-%d')], for a year of four digits or
    more as every time stamp of a file gives. *)
Definition strftime_ymd (d : datetime) : pystr :=
  zero_pad 4 (year d) ++ lit "-" ++ zero_pad 2 (month d)
    ++ lit "-" ++ zero_pad 2 (day d).

(** Lines 57-59: add the creation date if not present. *)
Definition add_created (file_data : FileData) (md : dict) : dict :=
  if negb (truthy (dict_get md Created))
  then dict_set md Created (VStr (strftime_ymd (creation_date file_data)))
  else md.

(** Lines 61-64: the local [title] and the mapping after them. *)
Definition add_title (file_data : FileData) (md : dict) : value * dict :=
  let title := dict_get md Title in
  if negb (truthy title)
  then let title := VStr (create_title file_data) in
       (title, dict_set md Title title)
  else (title, md).

(** Lines 66-68: ensure that the local [title] is a string. *)
Definition title_as_str (title : value) : pystr :=
  if negb (is_str title)
  then match title with VNone => [] | _ => py_str title end
  else py_str title.

(** Lines 57-75: the body of [process_post] after the note is parsed. *)
Definition enrich (file_data : FileData) (post : Post) : M Post :=
  let md := add_created file_data (metadata post) in
  let '(title, md) := add_title file_data md in
  let title := title_as_str title in
  if negb (truthy (dict_get md Description))
  then d ← describe_text (text file_data) title;
       mret (mk_Post (dict_set md Description (VStr d)) (content post))
  else mret (mk_Post md (content post)).

Definition process_post (file_data : FileData) : M Post :=
  post ← lift (frontmatter_loads env (text file_data));
  enrich file_data post.

(** *** [save_file] *)

Definition write_file (file_path : Path) (content : pystr) : M unit := fun w =>
  match fs w !! file_path with
  | Some n =>
      match write_error n with
      | Some e => (Raise e, w)
      | None =>
          (Ok tt, mk_World (<[file_path := mk_node (stat n) (Ok content) None]> (fs w))
                           (calls w) (stdout w))
      end
  | None =>
      (Ok tt, mk_World (<[file_path := mk_node (created_stat env file_path)
                                               (Ok content) None]> (fs w))
                       (calls w) (stdout w))
  end.

Definition save_file (file_path : Path) (post : Post) : M unit :=
  content ← lift (frontmatter_dumps env post);
  write_file file_path content.

(** *** [md_files] *)


(** *** [process_file] *)

Definition process_file (file : Path) : M unit :=
  try_except
    (file_data ← get_file file;
     post ← process_post file_data;
     save_file file post;;
     print (lit "Successfully processed: " ++ path_str env file))
    (fun e =>
       match e with
       | FileNotFoundError _ => print (lit "Error: " ++ exn_msg e)
       | _ => print (lit "Unexpected error: " ++ exn_msg e)
       end).

(** *** [main] *)

Definition folder_to_process : pystr :=
  lit "/Users/jamalhansen/vaults/BrainSync/2024 PyTexas".

(** The loop of [main] over the files that [md_files] yields. *)
Definition process_all (files : list Path) : M unit :=
  for_each files process_file.


End Program.

(** ** Notions used to state the properties *)

(** The three keys that [process_post] manages. *)
Definition managed_keys : list (list N) := [Created; Title; Description].

(** A key is missing when the program's own test [not md.get(k)] holds:
    the key is absent, or its value is empty ([None], [''], [0], [False]). *)
Definition missing (md : dict) (k : pystr) : Prop :=
  truthy (dict_get md k) = false.

(** A note is fully enriched when none of the three keys is missing. *)
Definition fully_enriched (md : dict) : Prop :=
  Forall (fun k => truthy (dict_get md k) = true) managed_keys.

(** The entries of a mapping under the keys that the program does not
    manage, in their order. *)
Definition other_entries (md : dict) : dict :=
  filter (fun kv => kv.1 ∉ managed_keys) md.

(** The title that step 3 of the enrichment works with: the existing
    [Title] in its string form, or the one derived from the file name. *)
Definition effective_title (env : Env) (file_data : FileData) (md : dict)
    : pystr :=
  match dict_lookup md Title with
  | Some v => if truthy v then py_str v else create_title env file_data
  | None => create_title env file_data
  end.

(** The call that [describe_text] makes. *)
Definition describe_call (text title : pystr) : call :=
  (summarizer describe_instructions, describe_prompt text title).

(** Load, parse, enrich: what [process_file] does before it writes. *)
Definition load_parse_enrich (env : Env) (file : Path) : M Post :=
  file_data ← get_file env file;
  process_post env file_data.

(** The line that the handlers of [process_file] print for [e]. *)
Definition error_line (e : exn) : pystr :=
  match e with
  | FileNotFoundError _ => lit "Error: " ++ exn_msg e
  | _ => lit "Unexpected error: " ++ exn_msg e
  end.

(** *** The wording of the specification for the derived title

    In the words of the specification, underscores are replaced with
    spaces and each word is capitalized.  [spec_title] does that, apart
    from [create_title]: the text is cut into its maximal runs of letters
    and of other characters, a word is a run of letters, and capitalizing
    it puts its first letter in upper case and the others in lower case. *)

Fixpoint runs (s : pystr) : list (bool * list N) :=
  match s with
  | [] => []
  | c :: s' =>
      match runs s' with
      | (b, r) :: rs =>
          if Bool.eqb b (ascii_isalpha c) then (b, c :: r) :: rs
          else (ascii_isalpha c, [c]) :: (b, r) :: rs
      | [] => [(ascii_isalpha c, [c])]
      end
  end.

Definition capitalize (word : pystr) : pystr :=
  match word with
  | [] => []
  | c :: w => ascii_toupper c :: map ascii_tolower w
  end.

Definition capitalize_each_word (s : pystr) : pystr :=
  concat (map (fun r : bool * list N => if r.1 then capitalize r.2 else r.2)
              (runs s)).

Definition spec_title (stem : pystr) : pystr :=
  capitalize_each_word (replace 95 32 stem).

(** [do_title] on ASCII text, where no table and no context is read. *)
Fixpoint ascii_title (previous_is_cased : bool) (s : pystr) : pystr :=
  match s with
  | [] => []
  | c :: s' =>
      (if previous_is_cased then ascii_tolower c else ascii_toupper c)
        :: ascii_title (ascii_isalpha c) s'
  end.

(** The runs of a text written out, when the text follows a letter
    ([previous_is_cased]) or not: a first run of letters then continues a
    word. *)
Definition render (previous_is_cased : bool) (rs : list (bool * list N))
    : pystr :=
  match rs with
  | [] => []
  | (b, r) :: rs' =>
      (if b then (if previous_is_cased then map ascii_tolower r
                  else capitalize r)
       else r)
        ++ concat (map (fun r : bool * list N =>
                          if r.1 then capitalize r.2 else r.2) rs')
  end.

(** Neighbours in a list of kinds differ. *)
Fixpoint alternate (tags : list bool) : Prop :=
  match tags with
  | b1 :: (b2 :: _) as tags' => b1 ≠ b2 /\ alternate tags'
  | _ => True
  end.

(** *** The wording of the specification read word by word

    The other reading of "underscores replaced with spaces, each word
    capitalized": the words are what the spaces separate, and capitalizing a
    word puts its first character in upper case.  [literal_title] leaves the
    other characters as they are, [literal_title_lower] puts them in lower
    case as [str.capitalize] does. *)

Fixpoint capitalize_after_space (lower_rest at_start : bool) (s : pystr)
    : pystr :=
  match s with
  | [] => []
  | c :: s' =>
      (if at_start then ascii_toupper c
       else if lower_rest then ascii_tolower c else c)
        :: capitalize_after_space lower_rest (c =? 32) s'
  end.

Definition literal_title (stem : pystr) : pystr :=
  capitalize_after_space false true (replace 95 32 stem).

Definition literal_title_lower (stem : pystr) : pystr :=
  capitalize_after_space true true (replace 95 32 stem).

(** Whether position [i] of [s] comes right after a letter;
    [previous_is_cased] tells it for position 0. *)
Definition follows_letter (previous_is_cased : bool) (s : pystr) (i : nat)
    : bool :=
  match i with
  | O => previous_is_cased
  | S j => match s !! j with
           | Some c => ascii_isalpha c
           | None => false
           end
  end.

(** *** Notions for the further properties *)

(** [k not in md] *)
Definition absent (md : dict) (k : pystr) : bool :=
  match dict_lookup md k with
  | None => true
  | Some _ => false
  end.

(** The managed keys that a mapping does not have, in the order in which
    [process_post] assigns them. *)
Definition new_keys (md : dict) : list (list N) :=
  List.filter (absent md) managed_keys.

Definition is_digit (c : N) : bool := (48 <=? c) && (c <=? 57).

(** A numeral of exactly [w] digits. *)
Definition is_numeral (w : nat) (s : pystr) : bool :=
  Nat.eqb (length s) w && forallb is_digit s.

(** The number that a numeral denotes. *)
Definition digits_value (s : pystr) : N :=
  fold_left (fun acc c => 10 * acc + (c - 48)) s 0.

(** [zero_pad w n] is a numeral of [w] digits that denotes [n]. *)
Definition pad_ok (w : nat) (n : N) : bool :=
  is_numeral w (zero_pad w n) && (digits_value (zero_pad w n) =? n).

(** The numbers below [n]. *)
Definition N_below (n : N) : list N := map N.of_nat (seq 0 (N.to_nat n)).

(** The world after [process_file] has failed with [e] on it: one more
    line, and the calls made up to the failure. *)
Definition after_error (w : World) (cs : list call) (e : exn) : World :=
  mk_World (fs w) cs (stdout w ++ [error_line e]).

(** ** Sample environments and inputs

    Concrete instances of [Env] on which the program can be run: ASCII-only
    Unicode tables, a parser for notes that have no metadata block, and
    agents with a fixed behaviour. *)

Module Sample.

Definition today : datetime := mk_datetime 2024 3 9.

(** The last component of a POSIX path. *)
Fixpoint basename_from (acc : pystr) (p : pystr) : pystr :=
  match p with
  | [] => acc
  | c :: p' => if c =? 47 then basename_from [] p' else basename_from (acc ++ [c]) p'
  end.

(** The name up to its first dot (enough for names with one suffix). *)
Fixpoint before_dot (s : pystr) : pystr :=
  match s with
  | [] => []
  | c :: s' => if c =? 46 then [] else c :: before_dot s'
  end.

Definition stem_of (p : Path) : pystr := before_dot (basename_from [] p).

(** A plain rendering of a note: the metadata between two lines of
    dashes, one [key: value] per line, a blank line, the body. *)
Definition render_post (p : Post) : pystr :=
  lit "---" ++ [LF]
    ++ concat (map (fun kv : list N * value =>
                      kv.1 ++ lit ": " ++ py_str kv.2 ++ [LF]) (metadata p))
    ++ lit "---" ++ [LF; LF] ++ content p.

(** The environment whose agent runner is [run]. *)
Definition env_with (run : list call -> Agent -> list N -> result (list N))
    : Env :=
  {| stem := stem_of;
     path_str := fun p => p;
     fromtimestamp := fun _ => today;
     ucd_is_cased := fun _ => false;
     ucd_to_title_full := fun c => (c, []);
     ucd_lower := fun _ _ c => (c, []);
     frontmatter_loads := fun t => Ok (mk_Post [] t);
     frontmatter_dumps := fun p => Ok (render_post p);
     runner_run := run;
     glob_md := fun _ _ => [];
     is_dir := fun _ _ => true;
     created_stat := fun _ => Ok (mk_stat None 0) |}.

(** An agent with one fixed answer. *)
Definition env_fixed : Env :=
  env_with (fun _ _ _ => Ok (lit "Notes taken at PyTexas 2024.")).

(** An agent whose first answer is empty. *)
Definition env_empty_first : Env :=
  env_with (fun history _ _ =>
              match history with
              | [] => Ok []
              | _ => Ok (lit "Notes taken at PyTexas 2024.")
              end).

(** An agent whose answer carries surrounding white space. *)
Definition env_padded : Env :=
  env_with (fun _ _ _ => Ok (lit " Notes taken at PyTexas 2024. ")).

(** An agent that fails. *)
Definition env_failing : Env :=
  env_with (fun _ _ _ => Raise (OtherException (lit "Request timed out."))).

Definition note_path : Path := lit "/vault/pytexas_2024.md".

Definition note_text : pystr := lit "Keynote was great.".

Definition note_data : FileData := mk_FileData note_text note_path today.

Definition note_node : node :=
  mk_node (Ok (mk_stat None 1710000000)) (Ok note_text) None.

Definition world0 : World := mk_World {[ note_path := note_node ]} [] [].

Definition blank_post : Post := mk_Post [] note_text.

(** A note with a numeric title and a tag. *)
Definition numbered_post : Post :=
  mk_Post [(lit "tags", VStr (lit "conference")); (Title, VInt 2024);
           (Description, VStr (lit "Talk notes."))] note_text.

(** The same without a description. *)
Definition numbered_undescribed : Post :=
  mk_Post [(lit "tags", VStr (lit "conference")); (Title, VInt 2024)] note_text.

(** An environment with a given parser, directory listing and agent. *)
Definition env_full (load : list N -> result Post)
    (run : list call -> Agent -> list N -> result (list N))
    (glob : gmap (list N) node -> list N -> list (list N))
    (isdir : gmap (list N) node -> list N -> bool) : Env :=
  {| stem := stem_of;
     path_str := fun p => p;
     fromtimestamp := fun _ => today;
     ucd_is_cased := fun _ => false;
     ucd_to_title_full := fun c => (c, []);
     ucd_lower := fun _ _ c => (c, []);
     frontmatter_loads := load;
     frontmatter_dumps := fun p => Ok (render_post p);
     runner_run := run;
     glob_md := glob;
     is_dir := isdir;
     created_stat := fun _ => Ok (mk_stat None 0) |}.

(** A note that has the three keys. *)
Definition enriched_post : Post :=
  mk_Post [(Created, VStr (lit "2024-03-09"));
           (Title, VStr (lit "Pytexas 2024"));
           (Description, VStr (lit "Talk notes."))] note_text.


(** The parser rejects the metadata block. *)
Definition env_bad_yaml : Env :=
  env_full (fun _ => Raise (OtherException (lit "mapping values are not allowed here")))
           (fun _ _ _ => Ok (lit "Notes taken at PyTexas 2024."))
           (fun _ _ => []) (fun _ _ => true).

(** The note cannot be opened for writing. *)
Definition readonly_node : node :=
  mk_node (Ok (mk_stat None 1710000000)) (Ok note_text)
          (Some (OtherException (lit "[Errno 13] Permission denied"))).

Definition readonly_world : World :=
  mk_World {[ note_path := readonly_node ]} [] [].

(** A vault: the folder of [main], with one note and one missing name. *)
Definition vault_note : Path :=
  lit "/Users/jamalhansen/vaults/BrainSync/2024 PyTexas/pytexas_2024.md".

Definition vault_gone : Path :=
  lit "/Users/jamalhansen/vaults/BrainSync/2024 PyTexas/gone.md".

Definition folder_node : node :=
  mk_node (Ok (mk_stat None 1700000000))
          (Raise (OtherException (lit "[Errno 21] Is a directory")))
          (Some (OtherException (lit "[Errno 21] Is a directory"))).

Definition vault_world : World :=
  mk_World (<[ vault_note := note_node ]>
              {[ folder_to_process := folder_node ]}) [] [].

Definition env_vault : Env :=
  env_full (fun t => Ok (mk_Post [] t))
           (fun _ _ _ => Ok (lit "Notes taken at PyTexas 2024."))
           (fun _ _ => [vault_gone; vault_note])
           (fun _ p => bool_decide (p = folder_to_process)).

(** A note whose title is the number 0 and whose description is [False],
    as YAML loads [Title: 0] and [Description: No]. *)
Definition zero_post : Post :=
  mk_Post [(Title, VInt 0); (Description, VBool false)] note_text.

(** A file name with an apostrophe and a digit inside its words. *)
Definition apostrophe_data : FileData :=
  mk_FileData note_text (lit "/vault/it's_my2nd.md") today.










End Sample.

(** * Properties *)

(** ** Mappings *)

Lemma Created_neq_Title : Created ≠ Title.
Proof. discriminate. Qed.

Lemma Created_neq_Description : Created ≠ Description.
Proof. discriminate. Qed.

Lemma Title_neq_Description : Title ≠ Description.
Proof. discriminate. Qed.

Lemma dict_lookup_set_eq (d : dict) k v :
  dict_lookup (dict_set d k v) k = Some v.
Proof.
  induction d as [|[k' v'] d IH]; simpl.
  - by rewrite decide_True.
  - destruct (decide (k' = k)) as [->|Hne]; simpl.
    + by rewrite decide_True.
    + by rewrite decide_False.
Qed.

Lemma dict_lookup_set_ne (d : dict) k k' v :
  k ≠ k' -> dict_lookup (dict_set d k v) k' = dict_lookup d k'.
Proof.
  intros Hne. induction d as [|[k0 v0] d IH]; simpl.
  - by rewrite decide_False.
  - destruct (decide (k0 = k)) as [->|H0]; simpl.
    + by rewrite !decide_False.
    + by rewrite IH.
Qed.

Lemma dict_get_set_eq (d : dict) k v : dict_get (dict_set d k v) k = v.
Proof. unfold dict_get. by rewrite dict_lookup_set_eq. Qed.

Lemma dict_get_set_ne (d : dict) k k' v :
  k ≠ k' -> dict_get (dict_set d k v) k' = dict_get d k'.
Proof. intros. unfold dict_get. by rewrite dict_lookup_set_ne. Qed.

(** Assigning a managed key leaves the entries of all other keys where
    they are. *)
Lemma other_entries_set (d : dict) k v :
  k ∈ managed_keys -> other_entries (dict_set d k v) = other_entries d.
Proof.
  intros Hk. unfold other_entries.
  induction d as [|[k' v'] d IH]; simpl.
  - by rewrite filter_cons_False; [|simpl; tauto].
  - destruct (decide (k' = k)) as [->|Hne].
    + by rewrite !filter_cons_False; [| simpl; tauto..].
    + rewrite !filter_cons. simpl. by rewrite IH.
Qed.

(** ** The steps of the enrichment *)

Lemma add_created_other fd (md : dict) k :
  k ≠ Created -> dict_lookup (add_created fd md) k = dict_lookup md k.
Proof.
  intros Hk. unfold add_created.
  destruct (truthy (dict_get md Created)); simpl; [done|].
  by rewrite dict_lookup_set_ne.
Qed.

Lemma add_created_truthy fd (md : dict) :
  truthy (dict_get (add_created fd md) Created) = true.
Proof.
  unfold add_created.
  destruct (truthy (dict_get md Created)) eqn:E; simpl; [done|].
  rewrite dict_get_set_eq. unfold strftime_ymd. simpl.
  destruct (zero_pad 4 (year (creation_date fd)) ++ _) eqn:E'; [|done].
  apply app_eq_nil in E' as [_ E']. discriminate.
Qed.

Lemma add_created_keeps fd (md : dict) v :
  dict_lookup md Created = Some v -> truthy v = true ->
  add_created fd md = md.
Proof.
  intros H Hv. unfold add_created, dict_get. by rewrite H; simpl; rewrite Hv.
Qed.

Lemma add_title_other env fd (md : dict) k :
  k ≠ Title ->
  dict_lookup (add_title env fd md).2 k = dict_lookup md k.
Proof.
  intros Hk. unfold add_title.
  destruct (truthy (dict_get md Title)); simpl; [done|].
  by rewrite dict_lookup_set_ne.
Qed.

(** The local [title] after lines 61-68 is the effective title. *)
Lemma title_as_str_add_title env fd (md : dict) :
  title_as_str (add_title env fd md).1 = effective_title env fd md.
Proof.
  unfold add_title, effective_title, dict_get.
  destruct (dict_lookup md Title) as [v|]; simpl; [|done].
  destruct (truthy v) eqn:Hv; simpl; [|done].
  by destruct v.
Qed.

Lemma effective_title_add_created env fd (md : dict) :
  effective_title env fd (add_created fd md) = effective_title env fd md.
Proof.
  unfold effective_title. rewrite add_created_other; [done|].
  apply not_eq_sym, Created_neq_Title.
Qed.

(** [enrich], unfolded: the mapping after the first two steps, then the
    call to the agent when the description is missing. *)
Lemma enrich_unfold env fd post w :
  let md := (add_title env fd (add_created fd (metadata post))).2 in
  let t := effective_title env fd (metadata post) in
  enrich env fd post w =
    if truthy (dict_get md Description)
    then (Ok (mk_Post md (content post)), w)
    else
      let w' := mk_World (fs w) (calls w ++ [describe_call (text fd) t])
                         (stdout w) in
      match runner_run env (calls w) (summarizer describe_instructions)
                       (describe_prompt (text fd) t) with
      | Ok d => (Ok (mk_Post (dict_set md Description (VStr d)) (content post)), w')
      | Raise e => (Raise e, w')
      end.
Proof.
  intros md t. unfold enrich.
  pose proof (title_as_str_add_title env fd (add_created fd (metadata post))) as Ht.
  rewrite effective_title_add_created in Ht. fold t in Ht.
  subst md. destruct (add_title env fd _) as [ti md] eqn:E. simpl in *.
  rewrite Ht.
  destruct (truthy (dict_get md Description)); simpl; [done|].
  unfold mbind, M_bind, describe_text, run_agent, describe_call. simpl.
  by destruct (runner_run env _ _ _).
Qed.

Lemma add_created_missing fd (md : dict) :
  missing md Created ->
  add_created fd md
  = dict_set md Created (VStr (strftime_ymd (creation_date fd))).
Proof. unfold missing, add_created. by intros ->. Qed.

Lemma add_title_missing env fd (md : dict) :
  missing md Title ->
  add_title env fd md
  = (VStr (create_title env fd),
     dict_set md Title (VStr (create_title env fd))).
Proof. unfold missing, add_title. by intros ->. Qed.

Lemma add_title_keeps env fd (md : dict) v :
  dict_lookup md Title = Some v -> truthy v = true ->
  (add_title env fd md).2 = md.
Proof.
  intros H Hv. unfold add_title, dict_get. by rewrite H; simpl; rewrite Hv.
Qed.

(** Neither of the first two steps replaces a value that is there. *)
Lemma add_created_lookup fd (md : dict) k v :
  dict_lookup md k = Some v -> truthy v = true ->
  dict_lookup (add_created fd md) k = Some v.
Proof.
  intros H Hv. destruct (decide (k = Created)) as [->|Hk].
  - by rewrite (add_created_keeps _ _ v).
  - by rewrite add_created_other.
Qed.

Lemma add_title_lookup env fd (md : dict) k v :
  dict_lookup md k = Some v -> truthy v = true ->
  dict_lookup (add_title env fd md).2 k = Some v.
Proof.
  intros H Hv. destruct (decide (k = Title)) as [->|Hk].
  - by rewrite (add_title_keeps _ _ _ v).
  - by rewrite add_title_other.
Qed.

Lemma other_entries_add_created fd (md : dict) :
  other_entries (add_created fd md) = other_entries md.
Proof.
  unfold add_created. destruct (truthy _); simpl; [done|].
  apply other_entries_set. unfold managed_keys. set_solver.
Qed.

Lemma other_entries_add_title env fd (md : dict) :
  other_entries (add_title env fd md).2 = other_entries md.
Proof.
  unfold add_title. destruct (truthy _); simpl; [done|].
  apply other_entries_set. unfold managed_keys. set_solver.
Qed.

(** What a successful [enrich] returns: the mapping after the first two
    steps, with the description assigned if it was missing. *)
Lemma enrich_Ok_inv env fd post w post' w' :
  enrich env fd post w = (Ok post', w') ->
  let md := (add_title env fd (add_created fd (metadata post))).2 in
  content post' = content post /\
  ((truthy (dict_get md Description) = true /\ metadata post' = md /\ w' = w)
   \/ (truthy (dict_get md Description) = false /\
       exists d, metadata post' = dict_set md Description (VStr d))).
Proof.
  rewrite enrich_unfold. simpl.
  destruct (truthy (dict_get _ Description)) eqn:E.
  - intros [= <- <-]. simpl. by split; [|left].
  - destruct (runner_run env _ _ _) as [d|e]; [|done].
    intros [= <- <-]. simpl. split; [done|right]. split; [done|by exists d].
Qed.

(** [dict_lookup] reads an entry that [filter] keeps. *)
Lemma dict_lookup_other_entries (md : dict) k :
  k ∉ managed_keys -> dict_lookup (other_entries md) k = dict_lookup md k.
Proof.
  intros Hk. unfold other_entries.
  induction md as [|[k' v'] md IH]; simpl; [done|].
  rewrite filter_cons. simpl. destruct (decide (k' = k)) as [->|Hne].
  - rewrite decide_True; [|done]. simpl. by rewrite decide_True.
  - case_decide; simpl; [by rewrite decide_False|done].
Qed.

(** ** C10: the frame of [enrich] *)

(** C10.  When [enrich] returns a note, its body is the body it was given,
    and the entries of its metadata under keys other than [Created],
    [Title] and [Description] are the ones it was given: the same keys, in
    the same order, with the same values. *)
Theorem enrich_frame env fd post w post' w' :
  enrich env fd post w = (Ok post', w') ->
  content post' = content post
  /\ other_entries (metadata post') = other_entries (metadata post)
  /\ (forall k, k ∉ managed_keys ->
        dict_lookup (metadata post') k = dict_lookup (metadata post) k).
Proof.
  intros H. apply enrich_Ok_inv in H as [Hc Hm]. split; [done|].
  assert (other_entries (metadata post') = other_entries (metadata post)) as Ho.
  { destruct Hm as [(_ & -> & _)|(_ & d & ->)].
    - by rewrite other_entries_add_title, other_entries_add_created.
    - rewrite other_entries_set by (unfold managed_keys; set_solver).
      by rewrite other_entries_add_title, other_entries_add_created. }
  split; [done|]. intros k Hk.
  by rewrite <- (dict_lookup_other_entries (metadata post')),
             <- (dict_lookup_other_entries (metadata post)), Ho.
Qed.

Lemma enrich_frame_witness :
  enrich Sample.env_fixed Sample.note_data Sample.numbered_undescribed Sample.world0
    = (Ok (mk_Post [(lit "tags", VStr (lit "conference")); (Title, VInt 2024);
                    (Created, VStr (lit "2024-03-09"));
                    (Description, VStr (lit "Notes taken at PyTexas 2024."))]
                   Sample.note_text),
       mk_World (fs Sample.world0)
                [describe_call Sample.note_text (lit "2024")] [])
  /\ other_entries [(lit "tags", VStr (lit "conference")); (Title, VInt 2024);
                    (Created, VStr (lit "2024-03-09"));
                    (Description, VStr (lit "Notes taken at PyTexas 2024."))]
     = other_entries (metadata Sample.numbered_undescribed).
Proof.
  assert (enrich Sample.env_fixed Sample.note_data Sample.numbered_undescribed
            Sample.world0
          = (Ok (mk_Post [(lit "tags", VStr (lit "conference")); (Title, VInt 2024);
                    (Created, VStr (lit "2024-03-09"));
                    (Description, VStr (lit "Notes taken at PyTexas 2024."))]
                   Sample.note_text),
             mk_World (fs Sample.world0)
                [describe_call Sample.note_text (lit "2024")] [])) as E.
  { vm_compute. reflexivity. }
  split; [exact E|].
  exact (proj1 (proj2 (enrich_frame _ _ _ _ _ _ E))).
Defined.

(** ** C3: existing values are kept *)

(** A value that the program finds present under one of its keys is the
    value under that key in the note that [enrich] returns. *)
Lemma enrich_preserves_lookup env fd post w post' w' k v :
  enrich env fd post w = (Ok post', w') ->
  dict_lookup (metadata post) k = Some v ->
  truthy v = true ->
  dict_lookup (metadata post') k = Some v.
Proof.
  intros H Hl Hv. apply enrich_Ok_inv in H as [_ Hm].
  pose proof (add_title_lookup env fd _ k v
                (add_created_lookup fd _ k v Hl Hv) Hv) as H2.
  destruct Hm as [(_ & -> & _)|(Hd & d & ->)]; [done|].
  destruct (decide (k = Description)) as [->|Hne].
  - unfold dict_get in Hd. rewrite H2 in Hd. simpl in Hd. congruence.
  - by rewrite dict_lookup_set_ne.
Qed.

(** C3, as amended.  A value that is present under [Created], [Title] or
    [Description] before [enrich] and that is true for Python (a non-empty
    string, a number other than zero, [True], a date) is the value under
    that key after it. *)
Theorem enrich_keeps_existing env fd post w post' w' k v :
  enrich env fd post w = (Ok post', w') ->
  k ∈ managed_keys ->
  dict_lookup (metadata post) k = Some v ->
  truthy v = true ->
  dict_lookup (metadata post') k = Some v.
Proof. intros H _. by apply (enrich_preserves_lookup env fd post w post' w'). Qed.

Lemma enrich_keeps_existing_witness :
  enrich Sample.env_fixed Sample.note_data Sample.numbered_post Sample.world0
    = (Ok (mk_Post (metadata Sample.numbered_post
                      ++ [(Created, VStr (lit "2024-03-09"))])
                   Sample.note_text),
       Sample.world0)
  /\ dict_lookup (metadata Sample.numbered_post
                    ++ [(Created, VStr (lit "2024-03-09"))]) Title
     = Some (VInt 2024).
Proof.
  assert (enrich Sample.env_fixed Sample.note_data Sample.numbered_post
            Sample.world0
          = (Ok (mk_Post (metadata Sample.numbered_post
                            ++ [(Created, VStr (lit "2024-03-09"))])
                         Sample.note_text),
             Sample.world0)) as E.
  { vm_compute. reflexivity. }
  split; [exact E|].
  apply (enrich_keeps_existing _ _ _ _ _ _ Title (VInt 2024) E).
  - unfold managed_keys. set_solver.
  - reflexivity.
  - reflexivity.
Defined.

(** C3 fails as stated: a value that is present but false for Python is
    taken for a missing one.  The title 0 and the description [False] of a
    note are both replaced, by the derived title and by the answer of the
    agent. *)
Lemma existing_falsy_counterexample :
  dict_lookup (metadata Sample.zero_post) Title = Some (VInt 0)
  /\ dict_lookup (metadata Sample.zero_post) Description
     = Some (VBool false)
  /\ exists post' w',
      enrich Sample.env_fixed Sample.note_data Sample.zero_post
             Sample.world0 = (Ok post', w')
      /\ dict_lookup (metadata post') Title
         = Some (VStr (lit "Pytexas 2024"))
      /\ dict_lookup (metadata post') Title ≠ Some (VInt 0)
      /\ dict_lookup (metadata post') Description
         = Some (VStr (lit "Notes taken at PyTexas 2024."))
      /\ dict_lookup (metadata post') Description ≠ Some (VBool false).
Proof.
  split; [reflexivity|]. split; [reflexivity|]. eexists _, _.
  split; [vm_compute; reflexivity|].
  split; [vm_compute; reflexivity|].
  split; [vm_compute; discriminate|].
  split; [vm_compute; reflexivity|].
  vm_compute. discriminate.
Qed.

(** ** C2: filling a note that has none of the three keys *)

Lemma truthy_get_lookup (md : dict) k :
  truthy (dict_get md k) = true ->
  exists v, dict_lookup md k = Some v /\ truthy v = true.
Proof.
  unfold dict_get. destruct (dict_lookup md k) as [v|]; simpl; [|done].
  intros. by exists v.
Qed.

(** The three presence checks short-circuit on a fully enriched note: it
    is returned as it is, and the agent is not called. *)
Lemma enrich_fully_enriched env fd post w :
  fully_enriched (metadata post) -> enrich env fd post w = (Ok post, w).
Proof.
  unfold fully_enriched, managed_keys. rewrite !Forall_cons.
  intros (Hc & Ht & Hd & _).
  apply truthy_get_lookup in Hc as (vc & Hc & Hvc).
  apply truthy_get_lookup in Ht as (vt & Ht & Hvt).
  rewrite enrich_unfold. simpl.
  rewrite (add_created_keeps _ _ vc), (add_title_keeps _ _ _ vt), Hd by done.
  by destruct post.
Qed.

Lemma to_title_full_nonempty env c : to_title_full env c ≠ [].
Proof.
  unfold to_title_full. destruct (is_ascii c); [done|].
  by destruct (ucd_to_title_full env c).
Qed.

Lemma title_nonempty env (s : pystr) : s ≠ [] -> title env s ≠ [].
Proof.
  destruct s as [|c s]; [done|]. intros _. unfold title. simpl.
  intros H. apply app_eq_nil in H as [H _].
  by apply to_title_full_nonempty in H.
Qed.

Lemma create_title_nonempty env fd :
  stem env (path fd) ≠ [] -> create_title env fd ≠ [].
Proof.
  intros H. unfold create_title, replace.
  apply (title_nonempty env) in H.
  by destruct (title env (stem env (path fd))).
Qed.

Lemma effective_title_missing env fd (md : dict) :
  missing md Title -> effective_title env fd md = create_title env fd.
Proof.
  unfold missing, effective_title, dict_get.
  destruct (dict_lookup md Title) as [v|]; simpl; [|done]. by intros ->.
Qed.

Lemma VStr_truthy (s : pystr) : s ≠ [] -> truthy (VStr s) = true.
Proof. by destruct s. Qed.

(** C2, as amended.  On a note in which [Created], [Title] and
    [Description] are all missing, and when the agent answers [d], one
    [enrich] sets the three keys: [Created] to the formatted creation date,
    [Title] to the title derived from the file name, [Description] to [d],
    with one call to the agent.  If [d] is not empty (and the file name has
    a stem), the note is then fully enriched and a second [enrich] returns
    it unchanged without calling the agent. *)
Theorem enrich_fills_then_noop env fd post w d :
  missing (metadata post) Created ->
  missing (metadata post) Title ->
  missing (metadata post) Description ->
  runner_run env (calls w) (summarizer describe_instructions)
             (describe_prompt (text fd) (create_title env fd)) = Ok d ->
  exists post1 w1,
    enrich env fd post w = (Ok post1, w1)
    /\ dict_lookup (metadata post1) Created
       = Some (VStr (strftime_ymd (creation_date fd)))
    /\ dict_lookup (metadata post1) Title = Some (VStr (create_title env fd))
    /\ dict_lookup (metadata post1) Description = Some (VStr d)
    /\ calls w1 = calls w ++ [describe_call (text fd) (create_title env fd)]
    /\ (d ≠ [] -> stem env (path fd) ≠ [] ->
        fully_enriched (metadata post1)
        /\ enrich env fd post1 w1 = (Ok post1, w1)).
Proof.
  intros Hc Ht Hd Hrun.
  pose proof Created_neq_Title. pose proof Created_neq_Description.
  pose proof Title_neq_Description.
  set (c := VStr (strftime_ymd (creation_date fd))).
  set (t := VStr (create_title env fd)).
  set (md2 := dict_set (dict_set (metadata post) Created c) Title t).
  assert ((add_title env fd (add_created fd (metadata post))).2 = md2) as E2.
  { rewrite add_created_missing by done.
    rewrite add_title_missing; [done|].
    unfold missing. by rewrite dict_get_set_ne. }
  assert (enrich env fd post w
          = (Ok (mk_Post (dict_set md2 Description (VStr d)) (content post)),
             mk_World (fs w)
               (calls w ++ [describe_call (text fd) (create_title env fd)])
               (stdout w))) as E.
  { rewrite enrich_unfold. simpl. rewrite E2.
    unfold md2. rewrite !dict_get_set_ne by done. rewrite Hd.
    rewrite effective_title_missing by done. by rewrite Hrun. }
  eexists _, _. split; [exact E|]. simpl.
  assert (dict_lookup (dict_set md2 Description (VStr d)) Created = Some c) as Lc.
  { unfold md2. rewrite !dict_lookup_set_ne by done. apply dict_lookup_set_eq. }
  assert (dict_lookup (dict_set md2 Description (VStr d)) Title = Some t) as Lt.
  { unfold md2. rewrite dict_lookup_set_ne by done. apply dict_lookup_set_eq. }
  assert (dict_lookup (dict_set md2 Description (VStr d)) Description
          = Some (VStr d)) as Ld by apply dict_lookup_set_eq.
  do 4 (split; [done|]).
  intros Hne Hstem.
  assert (fully_enriched (dict_set md2 Description (VStr d))) as Hfull.
  { unfold fully_enriched, managed_keys, dict_get.
    rewrite !Forall_cons, Lc, Lt, Ld. simpl. repeat split.
    - pose proof (add_created_truthy fd (metadata post)) as Hx.
      rewrite add_created_missing in Hx by done.
      by rewrite dict_get_set_eq in Hx.
    - by apply VStr_truthy, create_title_nonempty.
    - by apply VStr_truthy.
    - constructor. }
  split; [done|]. by apply enrich_fully_enriched.
Qed.

Lemma enrich_fills_then_noop_witness :
  exists post1 w1,
    enrich Sample.env_fixed Sample.note_data Sample.blank_post Sample.world0
      = (Ok post1, w1)
    /\ dict_lookup (metadata post1) Created = Some (VStr (lit "2024-03-09"))
    /\ dict_lookup (metadata post1) Title = Some (VStr (lit "Pytexas 2024"))
    /\ dict_lookup (metadata post1) Description
       = Some (VStr (lit "Notes taken at PyTexas 2024."))
    /\ enrich Sample.env_fixed Sample.note_data post1 w1 = (Ok post1, w1).
Proof.
  destruct (enrich_fills_then_noop Sample.env_fixed Sample.note_data
              Sample.blank_post Sample.world0
              (lit "Notes taken at PyTexas 2024."))
    as (post1 & w1 & E & Lc & Lt & Ld & _ & Hnoop).
  - reflexivity.
  - reflexivity.
  - reflexivity.
  - reflexivity.
  - exists post1, w1. split; [exact E|]. split; [exact Lc|].
    split; [exact Lt|]. split; [exact Ld|].
    apply Hnoop; discriminate.
Defined.

(** C2 fails as stated: the agent answers with the empty string to the
    first call.  The first [enrich] then stores an empty [Description], the
    third check of the second [enrich] does not short-circuit, the agent is
    called again, and the note changes. *)
Lemma enrich_twice_counterexample :
  missing (metadata Sample.blank_post) Created
  /\ missing (metadata Sample.blank_post) Title
  /\ missing (metadata Sample.blank_post) Description
  /\ exists post1 w1 post2 w2,
      enrich Sample.env_empty_first Sample.note_data Sample.blank_post
             Sample.world0 = (Ok post1, w1)
      /\ dict_lookup (metadata post1) Description = Some (VStr [])
      /\ enrich Sample.env_empty_first Sample.note_data post1 w1
         = (Ok post2, w2)
      /\ post2 ≠ post1
      /\ length (calls w2) = 2%nat.
Proof.
  do 3 (split; [reflexivity|]).
  eexists _, _, _, _.
  split; [vm_compute; reflexivity|].
  split; [vm_compute; reflexivity|].
  split; [vm_compute; reflexivity|].
  split; [|reflexivity].
  intros H. apply (f_equal (fun p => dict_lookup (metadata p) Description)) in H.
  vm_compute in H. discriminate H.
Qed.

(** ** C6: a title that is not a string *)

Lemma enrich_description_check env fd (md : dict) :
  dict_get (add_title env fd (add_created fd md)).2 Description
  = dict_get md Description.
Proof.
  unfold dict_get. rewrite add_title_other, add_created_other; [done|..].
  - apply not_eq_sym, Created_neq_Description.
  - apply not_eq_sym, Title_neq_Description.
Qed.

(** The calls that [enrich] makes: one, and only when the description is
    missing. *)
Lemma enrich_calls env fd post w :
  calls (enrich env fd post w).2
  = calls w ++
      (if truthy (dict_get (metadata post) Description) then []
       else [describe_call (text fd)
               (effective_title env fd (metadata post))]).
Proof.
  rewrite enrich_unfold. simpl. rewrite enrich_description_check.
  destruct (truthy _); simpl; [by rewrite app_nil_r|].
  by destruct (runner_run env _ _ _).
Qed.




(** ** C7: the call to the agent *)

(** C7, as amended.  When the [Description] of a note is missing, [enrich]
    makes exactly one call to the agent, with the prompt built from the
    title (the existing [Title] in its string form, or the one just derived
    from the file name when [Title] was missing) and from the first 2000
    characters of the raw text of the file; when the agent answers, the
    answer is stored as the [Description] as it is, without trimming; when
    the agent fails, [enrich] fails with the same exception. *)
Theorem enrich_describes env fd post w :
  missing (metadata post) Description ->
  let t := effective_title env fd (metadata post) in
  let prompt :=
    lit "Please describe the note titled '" ++ t
      ++ lit "' with the following content:" ++ [LF; LF]
      ++ firstn 2000 (text fd) in
  (missing (metadata post) Title -> t = create_title env fd)
  /\ calls (enrich env fd post w).2
     = calls w ++ [(summarizer describe_instructions, prompt)]
  /\ match runner_run env (calls w) (summarizer describe_instructions) prompt
     with
     | Ok d =>
         exists post', (enrich env fd post w).1 = Ok post'
           /\ dict_lookup (metadata post') Description = Some (VStr d)
     | Raise e => (enrich env fd post w).1 = Raise e
     end.
Proof.
  intros Hd t prompt. split; [apply effective_title_missing|].
  split.
  - rewrite enrich_calls. unfold missing in Hd. by rewrite Hd.
  - rewrite enrich_unfold. simpl. rewrite enrich_description_check.
    unfold missing in Hd. rewrite Hd. fold t.
    change (describe_prompt (text fd) t) with prompt.
    destruct (runner_run env _ _ _) as [d|e]; simpl; [|done].
    eexists. split; [done|]. simpl. apply dict_lookup_set_eq.
Qed.

Lemma enrich_describes_witness :
  calls (enrich Sample.env_padded Sample.note_data Sample.blank_post
                Sample.world0).2
  = [(summarizer describe_instructions,
      lit "Please describe the note titled 'Pytexas 2024' with the following content:"
        ++ [LF; LF] ++ lit "Keynote was great.")]
  /\ exists post',
       (enrich Sample.env_padded Sample.note_data Sample.blank_post
               Sample.world0).1 = Ok post'
       /\ dict_lookup (metadata post') Description
          = Some (VStr (lit " Notes taken at PyTexas 2024. ")).
Proof.
  pose proof (enrich_describes Sample.env_padded Sample.note_data
                Sample.blank_post Sample.world0 eq_refl) as (_ & Hc & Hr).
  split; [exact Hc|exact Hr].
Defined.

(** C7 fails as stated: the answer of the agent is stored with the white
    space around it, not trimmed. *)
Lemma description_trim_counterexample :
  missing (metadata Sample.blank_post) Description
  /\ runner_run Sample.env_padded []
       (summarizer describe_instructions)
       (describe_prompt Sample.note_text (lit "Pytexas 2024"))
     = Ok (lit " Notes taken at PyTexas 2024. ")
  /\ exists post' w',
      enrich Sample.env_padded Sample.note_data Sample.blank_post
             Sample.world0 = (Ok post', w')
      /\ dict_lookup (metadata post') Description
         = Some (VStr (lit " Notes taken at PyTexas 2024. "))
      /\ dict_lookup (metadata post') Description
         ≠ Some (VStr (strip (lit " Notes taken at PyTexas 2024. "))).
Proof.
  split; [reflexivity|]. split; [reflexivity|]. eexists _, _.
  split; [vm_compute; reflexivity|].
  split; [vm_compute; reflexivity|].
  vm_compute. discriminate.
Qed.

(** ** C9: the derived title *)

(** [runs] cuts a text into pieces: nothing is lost, every piece is
    non-empty and made of letters only or of other characters only, and
    two pieces that follow each other are of different kinds. *)
Lemma runs_concat (s : pystr) : concat (map snd (runs s)) = s.
Proof.
  induction s as [|c s IH]; [done|]. simpl.
  destruct (runs s) as [|[b r] rs]; simpl in *.
  - by rewrite <- IH.
  - destruct (Bool.eqb b (ascii_isalpha c)); simpl; by rewrite <- IH.
Qed.

Lemma runs_uniform (s : pystr) :
  Forall (fun r : bool * list N =>
            r.2 ≠ [] /\ Forall (fun c => ascii_isalpha c = r.1) r.2) (runs s).
Proof.
  induction s as [|c s IH]; simpl; [constructor|].
  destruct (runs s) as [|[b r] rs]; simpl in *.
  - repeat constructor; done.
  - apply Forall_cons in IH as [[Hne Hr] Hrs].
    destruct (Bool.eqb b (ascii_isalpha c)) eqn:E.
    + apply eqb_prop in E. constructor; [|done]. simpl. split; [done|].
      by constructor.
    + repeat constructor; done.
Qed.

Lemma runs_alternate (s : pystr) : alternate (map fst (runs s)).
Proof.
  induction s as [|c s IH]; simpl; [done|].
  destruct (runs s) as [|[b r] rs]; simpl in *; [done|].
  destruct (Bool.eqb b (ascii_isalpha c)) eqn:E; simpl; [done|].
  split; [|done]. apply eqb_false_iff in E. congruence.
Qed.

Lemma do_title_ascii env data i prev (s : pystr) :
  Forall (fun c => is_ascii c = true) s ->
  do_title env data i prev s = ascii_title prev s.
Proof.
  intros Hs. revert i prev.
  induction Hs as [|c s Hc Hs IH]; intros i prev; simpl; [done|].
  unfold lower_ucs4, to_title_full, is_cased. rewrite Hc, IH.
  by destruct prev.
Qed.

Lemma ascii_not_alpha_fixed c :
  ascii_isalpha c = false -> ascii_toupper c = c /\ ascii_tolower c = c.
Proof.
  unfold ascii_isalpha, ascii_toupper, ascii_tolower.
  intros [-> ->]%orb_false_iff. done.
Qed.

Lemma ascii_case_not_underscore c :
  c ≠ 95 -> ascii_toupper c ≠ 95 /\ ascii_tolower c ≠ 95.
Proof.
  intros Hc. unfold ascii_toupper, ascii_tolower, ascii_islower, ascii_isupper.
  split.
  - destruct (N.leb_spec 97 c), (N.leb_spec c 122); simpl; lia.
  - destruct (N.leb_spec 65 c), (N.leb_spec c 90); simpl; lia.
Qed.

(** Replacing underscores by spaces before or after [title] is the same. *)
Lemma replace_ascii_title prev (s : pystr) :
  replace 95 32 (ascii_title prev s) = ascii_title prev (replace 95 32 s).
Proof.
  revert prev. induction s as [|c s IH]; intros prev; [done|].
  unfold replace in *. simpl. rewrite IH.
  destruct (N.eqb_spec c 95) as [->|Hc].
  - by destruct prev.
  - destruct (ascii_case_not_underscore c Hc) as [Hu Hl].
    apply N.eqb_neq in Hu, Hl. destruct prev; by rewrite ?Hu, ?Hl.
Qed.

Lemma ascii_title_render prev (s : pystr) :
  ascii_title prev s = render prev (runs s).
Proof.
  revert prev. induction s as [|c s IH]; intros prev; [done|].
  simpl. rewrite IH.
  destruct (runs s) as [|[b r] rs]; simpl.
  - destruct (ascii_isalpha c) eqn:Hc; [by destruct prev|].
    destruct (ascii_not_alpha_fixed c Hc) as [-> ->]. by destruct prev.
  - destruct b, (ascii_isalpha c) eqn:Hc; simpl;
      try (destruct (ascii_not_alpha_fixed c Hc) as [-> ->]);
      by destruct prev.
Qed.

Lemma title_ascii_spec env (s : pystr) :
  Forall (fun c => is_ascii c = true) s ->
  replace 95 32 (title env s) = spec_title s.
Proof.
  intros Hs. unfold title, spec_title, capitalize_each_word.
  rewrite (do_title_ascii _ _ _ _ _ Hs), replace_ascii_title,
    ascii_title_render.
  by destruct (runs _) as [|[b r] rs].
Qed.

(** What [title] does at each position of an ASCII text: a letter is put
    in upper case unless it follows a letter, and then in lower case; a
    character that is not a letter is kept. *)
Lemma ascii_title_lookup prev (s : pystr) (i : nat) c :
  s !! i = Some c ->
  ascii_title prev s !! i
  = Some (if follows_letter prev s i then ascii_tolower c
          else ascii_toupper c).
Proof.
  revert prev i. induction s as [|c0 s IH]; intros prev i; [done|].
  destruct i as [|j]; simpl.
  - by intros [= ->].
  - intros Hj. rewrite (IH _ _ Hj). by destruct j.
Qed.

Lemma replace_case_char (prev_letter : bool) (c : N) :
  (if (if prev_letter then ascii_tolower c else ascii_toupper c) =? 95
   then 32
   else if prev_letter then ascii_tolower c else ascii_toupper c)
  = if c =? 95 then 32
    else if prev_letter then ascii_tolower c else ascii_toupper c.
Proof.
  destruct (N.eqb_spec c 95) as [->|Hc]; [by destruct prev_letter|].
  destruct (ascii_case_not_underscore c Hc) as [Hu Hl].
  apply N.eqb_neq in Hu, Hl. destruct prev_letter; by rewrite ?Hu, ?Hl.
Qed.

(** C9, as amended.  The title that [enrich] gives to a note without
    [Title] is [create_title]: a function of the stem of the file name
    alone, namely [str.title] of the stem with every underscore then
    replaced by a space.  On an ASCII stem this is the stem in which
    underscores are spaces and every maximal run of letters has its first
    letter in upper case and its other letters in lower case; position by
    position, an underscore becomes a space, a letter that follows a letter
    is put in lower case and any other letter in upper case, and every other
    character is kept.  So a letter after a digit or an apostrophe is in
    upper case: the stem [it's_my2nd] gives [It'S My2Nd], and the stem
    [pytexas_2024] gives [Pytexas 2024]. *)
Theorem create_title_spec env fd :
  (forall post w post' w',
     missing (metadata post) Title ->
     enrich env fd post w = (Ok post', w') ->
     dict_lookup (metadata post') Title = Some (VStr (create_title env fd)))
  /\ create_title env fd = replace 95 32 (title env (stem env (path fd)))
  /\ (forall fd', stem env (path fd') = stem env (path fd) ->
        create_title env fd' = create_title env fd)
  /\ (Forall (fun c => is_ascii c = true) (stem env (path fd)) ->
        create_title env fd = spec_title (stem env (path fd))
        /\ forall (i : nat) c,
             stem env (path fd) !! i = Some c ->
             create_title env fd !! i
             = Some (if c =? 95 then 32
                     else if follows_letter false (stem env (path fd)) i
                          then ascii_tolower c else ascii_toupper c))
  /\ (stem env (path fd) = lit "it's_my2nd" ->
        create_title env fd = lit "It'S My2Nd")
  /\ (stem env (path fd) = lit "pytexas_2024" ->
        create_title env fd = lit "Pytexas 2024").
Proof.
  split; [|split; [done|split; [|split; [|split]]]].
  - intros post w post' w' Hm E.
    apply enrich_Ok_inv in E as [_ Hmd].
    assert (dict_lookup (add_title env fd (add_created fd (metadata post))).2
              Title = Some (VStr (create_title env fd))) as H2.
    { rewrite add_title_missing; [apply dict_lookup_set_eq|].
      unfold missing, dict_get in *. rewrite add_created_other; [done|].
      apply not_eq_sym, Created_neq_Title. }
    destruct Hmd as [(_ & -> & _)|(_ & d & ->)]; [done|].
    rewrite dict_lookup_set_ne; [done|].
    apply not_eq_sym, Title_neq_Description.
  - intros fd' H. unfold create_title. by rewrite H.
  - intros Ha. split; [by apply title_ascii_spec|].
    intros i c Hi. unfold create_title, title.
    rewrite (do_title_ascii _ _ _ _ _ Ha). unfold replace.
    rewrite list_lookup_fmap, (ascii_title_lookup _ _ _ _ Hi). simpl.
    by rewrite replace_case_char.
  - intros H. unfold create_title. rewrite H.
    rewrite title_ascii_spec; [by vm_compute|].
    by repeat constructor.
  - intros H. unfold create_title. rewrite H.
    rewrite title_ascii_spec; [by vm_compute|].
    by repeat constructor.
Qed.

Lemma create_title_spec_witness :
  stem Sample.env_fixed (path Sample.note_data) = lit "pytexas_2024"
  /\ Forall (fun c => is_ascii c = true)
            (stem Sample.env_fixed (path Sample.note_data))
  /\ create_title Sample.env_fixed Sample.note_data = lit "Pytexas 2024"
  /\ create_title Sample.env_fixed Sample.note_data
     = spec_title (lit "pytexas_2024")
  /\ create_title Sample.env_fixed Sample.note_data !! 0%nat = Some 80
  /\ create_title Sample.env_fixed Sample.note_data !! 7%nat = Some 32
  /\ stem Sample.env_fixed (path Sample.apostrophe_data) = lit "it's_my2nd"
  /\ create_title Sample.env_fixed Sample.apostrophe_data
     = lit "It'S My2Nd".
Proof.
  assert (stem Sample.env_fixed (path Sample.note_data) = lit "pytexas_2024")
    as Hs by reflexivity.
  assert (stem Sample.env_fixed (path Sample.apostrophe_data)
          = lit "it's_my2nd") as Hs' by reflexivity.
  assert (Forall (fun c => is_ascii c = true)
                 (stem Sample.env_fixed (path Sample.note_data))) as Ha.
  { rewrite Hs. repeat constructor. }
  destruct (create_title_spec Sample.env_fixed Sample.note_data)
    as (_ & _ & _ & Hspec & _ & Hex).
  destruct (create_title_spec Sample.env_fixed Sample.apostrophe_data)
    as (_ & _ & _ & _ & Hex' & _).
  destruct (Hspec Ha) as [Hw Hp].
  split; [exact Hs|]. split; [exact Ha|].
  split; [exact (Hex Hs)|]. split; [rewrite <- Hs; exact Hw|].
  split; [exact (Hp 0%nat 112 eq_refl)|].
  split; [exact (Hp 7%nat 95 eq_refl)|].
  split; [exact Hs'|exact (Hex' Hs')].
Defined.

(** C9 fails as stated: with the words taken as what the spaces separate,
    capitalizing each word of [it's my2nd] gives [It's My2nd], whether the
    other letters are kept or lowered, but the program gives
    [It'S My2Nd]. *)
Lemma create_title_words_counterexample :
  stem Sample.env_fixed (path Sample.apostrophe_data) = lit "it's_my2nd"
  /\ literal_title (lit "it's_my2nd") = lit "It's My2nd"
  /\ literal_title_lower (lit "it's_my2nd") = lit "It's My2nd"
  /\ create_title Sample.env_fixed Sample.apostrophe_data
     = lit "It'S My2Nd"
  /\ create_title Sample.env_fixed Sample.apostrophe_data
     ≠ literal_title (stem Sample.env_fixed (path Sample.apostrophe_data))
  /\ create_title Sample.env_fixed Sample.apostrophe_data
     ≠ literal_title_lower
         (stem Sample.env_fixed (path Sample.apostrophe_data)).
Proof.
  split; [reflexivity|]. split; [reflexivity|]. split; [reflexivity|].
  split; [reflexivity|]. split; vm_compute; discriminate.
Qed.

(** ** C4: a file whose processing fails *)

Lemma get_file_world env file w : (get_file env file w).2 = w.
Proof.
  unfold get_file. destruct (fs w !! file) as [n|]; [|done].
  destruct (stat n); [|done]. by destruct (payload n).
Qed.

Lemma enrich_world env fd post w :
  fs (enrich env fd post w).2 = fs w
  /\ stdout (enrich env fd post w).2 = stdout w.
Proof.
  rewrite enrich_unfold. simpl. destruct (truthy _); [done|].
  by destruct (runner_run env _ _ _).
Qed.

Lemma process_post_world env fd w :
  fs (process_post env fd w).2 = fs w
  /\ stdout (process_post env fd w).2 = stdout w.
Proof.
  unfold process_post, mbind, M_bind, lift.
  destruct (frontmatter_loads env (text fd)) as [post|e]; [|done].
  apply enrich_world.
Qed.

(** Loading, parsing and enriching touch neither the files nor the
    output. *)
Lemma load_parse_enrich_world env file w :
  fs (load_parse_enrich env file w).2 = fs w
  /\ stdout (load_parse_enrich env file w).2 = stdout w.
Proof.
  unfold load_parse_enrich, mbind, M_bind.
  pose proof (get_file_world env file w) as Hg.
  destruct (get_file env file w) as [[fd|e] w0]; simpl in Hg; subst w0;
    [|done].
  apply process_post_world.
Qed.

(** [process_file] in terms of its two phases. *)
Lemma process_file_unfold env file w :
  process_file env file w =
    match load_parse_enrich env file w with
    | (Ok post, w1) =>
        match save_file env file post w1 with
        | (Ok _, w2) =>
            print (lit "Successfully processed: " ++ path_str env file) w2
        | (Raise e, w2) => print (error_line e) w2
        end
    | (Raise e, w1) => print (error_line e) w1
    end.
Proof.
  unfold process_file, try_except, load_parse_enrich, mbind, M_bind.
  destruct (get_file env file w) as [[fd|e] w0]; [|by destruct e].
  destruct (process_post env fd w0) as [[post|e] w1]; [|by destruct e].
  destruct (save_file env file post w1) as [[[]|e] w2]; [done|by destruct e].
Qed.

(** [process_file] never lets an exception through. *)
Lemma process_file_returns env file w : (process_file env file w).1 = Ok tt.
Proof.
  rewrite process_file_unfold.
  destruct (load_parse_enrich env file w) as [[post|e] w1]; [|done].
  by destruct (save_file env file post w1) as [[[]|e] w2].
Qed.

(** The loop goes on to the next file whatever happened to this one. *)
Lemma process_all_cons env file rest w :
  process_all env (file :: rest) w
  = process_all env rest (process_file env file w).2.
Proof.
  unfold process_all. simpl. unfold mbind, M_bind.
  pose proof (process_file_returns env file w) as H.
  destruct (process_file env file w) as [[[]|e] w']; simpl in *; [done|].
  discriminate.
Qed.

(** C4.  When loading, parsing or enriching a file raises [e] (a missing
    file, a parse error, a failure of the agent), [process_file] returns
    normally: it has written nothing, every file is as it was, one line
    reporting [e] has been printed, and the run goes on with the files that
    remain. *)
Theorem process_file_error_isolated env file w e w1 :
  load_parse_enrich env file w = (Raise e, w1) ->
  let w' := mk_World (fs w) (calls w1) (stdout w ++ [error_line e]) in
  process_file env file w = (Ok tt, w')
  /\ fs w' !! file = fs w !! file
  /\ (forall rest,
        process_all env (file :: rest) w = process_all env rest w').
Proof.
  intros H w'.
  assert (process_file env file w = (Ok tt, w')) as E.
  { rewrite process_file_unfold, H. unfold print, w'.
    pose proof (load_parse_enrich_world env file w) as [Hf Hs].
    rewrite H in Hf, Hs. simpl in Hf, Hs. by rewrite Hf, Hs. }
  split; [done|]. split; [done|].
  intros rest. by rewrite process_all_cons, E.
Qed.

Lemma process_file_error_isolated_witness :
  load_parse_enrich Sample.env_failing Sample.note_path Sample.world0
    = (Raise (OtherException (lit "Request timed out.")),
       mk_World (fs Sample.world0)
                [describe_call Sample.note_text (lit "Pytexas 2024")] [])
  /\ process_file Sample.env_failing Sample.note_path Sample.world0
     = (Ok tt,
        mk_World (fs Sample.world0)
                 [describe_call Sample.note_text (lit "Pytexas 2024")]
                 [lit "Unexpected error: Request timed out."])
  /\ fs Sample.world0 !! Sample.note_path = Some Sample.note_node.
Proof.
  assert (load_parse_enrich Sample.env_failing Sample.note_path Sample.world0
          = (Raise (OtherException (lit "Request timed out.")),
             mk_World (fs Sample.world0)
                [describe_call Sample.note_text (lit "Pytexas 2024")] []))
    as E.
  { vm_compute. reflexivity. }
  split; [exact E|].
  split; [exact (proj1 (process_file_error_isolated _ _ _ _ _ E))|].
  vm_compute. reflexivity.
Defined.

(** ** C8: a file without a metadata block *)





(** * Further properties of the program *)

(** ** [get_file] *)

(** [get_file] returns file data exactly when the path exists, can be
    stat'ed and can be read as text.  The data then carry that text and
    that path, the creation date is taken from the birth time where the
    platform has one and from the change time otherwise, and nothing in the
    world has changed. *)
Theorem get_file_succeeds_iff env file w fd w' :
  get_file env file w = (Ok fd, w') <->
  w' = w
  /\ path fd = file
  /\ exists n st,
       fs w !! file = Some n /\ stat n = Ok st /\ payload n = Ok (text fd)
       /\ creation_date fd
          = fromtimestamp env (default (st_ctime st) (st_birthtime st)).
Proof.
  unfold get_file. split.
  - destruct (fs w !! file) as [n|]; [|done].
    destruct (stat n) as [st|] eqn:Hst; [|done].
    destruct (payload n) as [txt|] eqn:Hp; [|done].
    intros [= <- <-]. simpl. do 2 (split; [done|]).
    exists n, st. by destruct (st_birthtime st).
  - intros (-> & <- & n & st & -> & -> & Hp & Hd). rewrite Hp.
    destruct fd as [t p d]. simpl in *. subst d.
    by destruct (st_birthtime st).
Qed.

(** ** [save_file] *)

(** What [save_file] does to the world. *)
Lemma save_file_cases env file post w :
  (exists e, save_file env file post w = (Raise e, w)
     /\ (frontmatter_dumps env post = Raise e
         \/ exists n, fs w !! file = Some n /\ write_error n = Some e))
  \/ (exists out,
        frontmatter_dumps env post = Ok out
        /\ (forall n, fs w !! file = Some n -> write_error n = None)
        /\ save_file env file post w
           = (Ok tt,
              mk_World
                (<[file := mk_node
                             (match fs w !! file with
                              | Some n => stat n
                              | None => created_stat env file
                              end) (Ok out) None]> (fs w))
                (calls w) (stdout w))).
Proof.
  unfold save_file, mbind, M_bind, lift, write_file.
  destruct (frontmatter_dumps env post) as [out|e]; [|left; eauto].
  destruct (fs w !! file) as [n|] eqn:Hn;
    [|right; exists out; by split].
  destruct (write_error n) as [e|] eqn:He; [left; eauto 6|right].
  exists out. split; [done|]. split; [|done]. by intros ? [= <-].
Qed.

(** After [save_file] has returned, [get_file] on the same path reads the
    serialization of the note that was saved (also when the file could not
    be read before), and every other path is as it was. *)
Theorem save_file_then_get_file env file post w n st w' :
  fs w !! file = Some n ->
  stat n = Ok st ->
  save_file env file post w = (Ok tt, w') ->
  exists out fd,
    frontmatter_dumps env post = Ok out
    /\ get_file env file w' = (Ok fd, w')
    /\ text fd = out /\ path fd = file
    /\ (forall p, p ≠ file -> fs w' !! p = fs w !! p).
Proof.
  intros Hn Hst Hs.
  destruct (save_file_cases env file post w)
    as [(e & E & _)|(out & Hd & _ & E)]; rewrite E in Hs; [done|].
  injection Hs as <-. rewrite Hn, Hst.
  exists out. eexists. split; [done|].
  unfold get_file. simpl. rewrite lookup_insert_eq. simpl.
  split; [done|]. split; [done|]. split; [done|].
  intros p Hp. by rewrite lookup_insert_ne.
Qed.

Lemma save_file_then_get_file_witness :
  exists out fd w',
    save_file Sample.env_fixed Sample.note_path Sample.enriched_post
              Sample.world0 = (Ok tt, w')
    /\ frontmatter_dumps Sample.env_fixed Sample.enriched_post = Ok out
    /\ get_file Sample.env_fixed Sample.note_path w' = (Ok fd, w')
    /\ text fd = out.
Proof.
  assert (save_file Sample.env_fixed Sample.note_path Sample.enriched_post
            Sample.world0
          = (Ok tt,
             mk_World {[ Sample.note_path :=
                           mk_node (stat Sample.note_node)
                             (Ok (Sample.render_post Sample.enriched_post))
                             None ]} [] [])) as E.
  { vm_compute. reflexivity. }
  destruct (save_file_then_get_file Sample.env_fixed Sample.note_path
              Sample.enriched_post Sample.world0 Sample.note_node
              (mk_stat None 1710000000) _ eq_refl eq_refl E)
    as (out & fd & Hd & Hg & Ht & _).
  exists out, fd. eexists. split; [exact E|]. split; [exact Hd|].
  split; [exact Hg|exact Ht].
Defined.

(** ** [process_file] *)

Lemma World_eta (w : World) : w = mk_World (fs w) (calls w) (stdout w).
Proof. by destruct w. Qed.

(** Loading, parsing and enriching make at most one call to the agent and
    change nothing else. *)
Lemma load_parse_enrich_effect env file w :
  exists l,
    (load_parse_enrich env file w).2
    = mk_World (fs w) (calls w ++ l) (stdout w)
    /\ (length l <= 1)%nat.
Proof.
  unfold load_parse_enrich, mbind, M_bind.
  pose proof (get_file_world env file w) as Hg.
  destruct (get_file env file w) as [[fd|e] w0]; simpl in Hg; subst w0.
  - unfold process_post, mbind, M_bind, lift.
    destruct (frontmatter_loads env (text fd)) as [post|e].
    + pose proof (enrich_world env fd post w) as [Hf Hs].
      pose proof (enrich_calls env fd post w) as Hc.
      destruct (enrich env fd post w) as [r w1]. simpl in *.
      eexists. split; [rewrite (World_eta w1), Hf, Hs, Hc; reflexivity|].
      destruct (truthy _); simpl; lia.
    + exists []. simpl. rewrite app_nil_r. split; [apply World_eta|lia].
  - exists []. simpl. rewrite app_nil_r. split; [apply World_eta|lia].
Qed.

Lemma load_parse_enrich_Ok_node env file w post w1 :
  load_parse_enrich env file w = (Ok post, w1) ->
  exists n, fs w !! file = Some n.
Proof.
  unfold load_parse_enrich, mbind, M_bind, get_file.
  destruct (fs w !! file) as [n|]; [eauto|done].
Qed.

(** The two ways in which [process_file] ends: with an error line and no
    file changed, or with the success line and the file rewritten. *)
Lemma process_file_cases env file w :
  exists l, (length l <= 1)%nat /\
    ((exists e,
        process_file env file w = (Ok tt, after_error w (calls w ++ l) e))
     \/ (exists post out n,
           load_parse_enrich env file w
             = (Ok post, mk_World (fs w) (calls w ++ l) (stdout w))
           /\ fs w !! file = Some n
           /\ write_error n = None
           /\ frontmatter_dumps env post = Ok out
           /\ process_file env file w
              = (Ok tt,
                 mk_World (<[file := mk_node (stat n) (Ok out) None]> (fs w))
                          (calls w ++ l)
                          (stdout w ++ [lit "Successfully processed: "
                                          ++ path_str env file])))).
Proof.
  destruct (load_parse_enrich_effect env file w) as (l & Hw & Hl).
  exists l. split; [done|]. rewrite process_file_unfold.
  destruct (load_parse_enrich env file w) as [[post|e] w1] eqn:E;
    simpl in Hw; subst w1; [|left; by exists e].
  destruct (load_parse_enrich_Ok_node _ _ _ _ _ E) as [n Hn].
  destruct (save_file_cases env file post
              (mk_World (fs w) (calls w ++ l) (stdout w)))
    as [(e & -> & _)|(out & Hd & Hw & ->)]; [left; by exists e|].
  simpl in *. rewrite Hn. right. exists post, out, n.
  do 4 (split; [by auto|]). done.
Qed.

(** [process_file] never raises, prints exactly one line, makes at most
    one call to the agent, and leaves every path other than its own as it
    was. *)
Theorem process_file_footprint env file w :
  (process_file env file w).1 = Ok tt
  /\ (exists line, stdout (process_file env file w).2 = stdout w ++ [line])
  /\ (exists l, calls (process_file env file w).2 = calls w ++ l
                /\ (length l <= 1)%nat)
  /\ (forall p, p ≠ file -> fs (process_file env file w).2 !! p = fs w !! p).
Proof.
  destruct (process_file_cases env file w)
    as (l & Hl & [(e & ->)|(post & out & n & _ & _ & _ & _ & ->)]); simpl.
  - eauto 10.
  - split; [done|]. split; [eauto|]. split; [eauto|].
    intros p Hp. by rewrite lookup_insert_ne.
Qed.

(** A path that does not exist: [process_file] prints the message of
    [get_file] after ["Error: "], and nothing else happens: no call to the
    agent, no file created. *)
Theorem process_file_missing_file env file w :
  fs w !! file = None ->
  process_file env file w
  = (Ok tt,
     mk_World (fs w) (calls w)
       (stdout w ++ [lit "Error: " ++ lit "File not found: "
                       ++ path_str env file])).
Proof.
  intros H. rewrite process_file_unfold.
  unfold load_parse_enrich, mbind, M_bind, get_file. by rewrite H.
Qed.

Lemma process_file_missing_file_witness :
  fs Sample.vault_world !! Sample.vault_gone = None
  /\ process_file Sample.env_vault Sample.vault_gone Sample.vault_world
     = (Ok tt,
        mk_World (fs Sample.vault_world) (calls Sample.vault_world)
          (stdout Sample.vault_world
             ++ [lit "Error: " ++ lit "File not found: "
                   ++ path_str Sample.env_vault Sample.vault_gone])).
Proof.
  assert (fs Sample.vault_world !! Sample.vault_gone = None) as H
    by (vm_compute; reflexivity).
  split; [exact H|].
  exact (process_file_missing_file Sample.env_vault Sample.vault_gone
           Sample.vault_world H).
Defined.

(** A file that the parser rejects: the exception of the parser is
    reported, the agent is not called and the file is not written. *)
Theorem process_file_parse_error env file w fd e :
  get_file env file w = (Ok fd, w) ->
  frontmatter_loads env (text fd) = Raise e ->
  process_file env file w = (Ok tt, after_error w (calls w) e).
Proof.
  intros Hg Hl. rewrite process_file_unfold.
  unfold load_parse_enrich, mbind, M_bind. rewrite Hg.
  unfold process_post, mbind, M_bind, lift. by rewrite Hl.
Qed.

Lemma process_file_parse_error_witness :
  process_file Sample.env_bad_yaml Sample.note_path Sample.world0
  = (Ok tt,
     mk_World (fs Sample.world0) []
       [lit "Unexpected error: mapping values are not allowed here"]).
Proof.
  rewrite (process_file_parse_error Sample.env_bad_yaml Sample.note_path
             Sample.world0 Sample.note_data
             (OtherException (lit "mapping values are not allowed here")));
    [|vm_compute; reflexivity|reflexivity].
  vm_compute. reflexivity.
Defined.

(** When the note cannot be serialized, or the file cannot be opened for
    writing, the exception is reported and the file is left as it was:
    the enrichment (and the answer of the agent) is lost. *)
Theorem process_file_save_error env file w post w1 e :
  load_parse_enrich env file w = (Ok post, w1) ->
  frontmatter_dumps env post = Raise e
  \/ (exists out n, frontmatter_dumps env post = Ok out
        /\ fs w !! file = Some n /\ write_error n = Some e) ->
  process_file env file w = (Ok tt, after_error w (calls w1) e).
Proof.
  intros E H. rewrite process_file_unfold, E.
  pose proof (load_parse_enrich_world env file w) as [Hf Hs].
  rewrite E in Hf, Hs. simpl in Hf, Hs.
  unfold save_file, mbind, M_bind, lift, write_file, after_error, print.
  destruct H as [->|(out & n & -> & Hn & He)]; simpl.
  - by rewrite Hf, Hs.
  - rewrite Hf, Hn, He. simpl. by rewrite Hf, Hs.
Qed.

Lemma process_file_save_error_witness :
  process_file Sample.env_fixed Sample.note_path Sample.readonly_world
  = (Ok tt,
     mk_World (fs Sample.readonly_world)
       [describe_call Sample.note_text (lit "Pytexas 2024")]
       [lit "Unexpected error: [Errno 13] Permission denied"]).
Proof.
  assert (load_parse_enrich Sample.env_fixed Sample.note_path
            Sample.readonly_world
          = (Ok (mk_Post [(Created, VStr (lit "2024-03-09"));
                          (Title, VStr (lit "Pytexas 2024"));
                          (Description,
                           VStr (lit "Notes taken at PyTexas 2024."))]
                         Sample.note_text),
             mk_World (fs Sample.readonly_world)
               [describe_call Sample.note_text (lit "Pytexas 2024")] []))
    as E.
  { vm_compute. reflexivity. }
  rewrite (process_file_save_error _ _ _ _ _
             (OtherException (lit "[Errno 13] Permission denied")) E).
  - vm_compute. reflexivity.
  - right. eexists _, Sample.readonly_node.
    split; [reflexivity|]. split; [vm_compute; reflexivity|reflexivity].
Defined.



(** ** The loop of [main] *)

Lemma process_all_effect env files w :
  (process_all env files w).1 = Ok tt
  /\ length (stdout (process_all env files w).2)
     = (length (stdout w) + length files)%nat
  /\ (length (calls (process_all env files w).2)
      <= length (calls w) + length files)%nat
  /\ (forall p, p ∉ files ->
        fs (process_all env files w).2 !! p = fs w !! p).
Proof.
  revert w. induction files as [|file files IH]; intros w.
  - simpl. repeat split; lia.
  - rewrite process_all_cons.
    destruct (IH (process_file env file w).2) as (Hr & Hs & Hc & Hf).
    assert (length (stdout (process_file env file w).2)
            = S (length (stdout w))
            /\ (length (calls (process_file env file w).2)
                <= S (length (calls w)))%nat
            /\ forall p, p ≠ file ->
                 fs (process_file env file w).2 !! p = fs w !! p)
      as (Hs1 & Hc1 & Hf1).
    { destruct (process_file_cases env file w)
        as (l & Hl & [(e & ->)|(post & out & n & _ & _ & _ & _ & ->)]);
        unfold after_error; simpl; rewrite !length_app; simpl.
      - split; [lia|split; [lia|done]].
      - split; [lia|split; [lia|]].
        intros p Hp. by rewrite lookup_insert_ne. }
    split; [done|]. simpl. split; [lia|]. split; [lia|].
    intros p Hp. apply not_elem_of_cons in Hp as [Hp1 Hp2].
    by rewrite Hf, Hf1.
Qed.

(** The loop over the files never stops on an exception: whatever the
    files are, it returns normally, has printed exactly one line for each
    of them, has called the agent at most once for each of them, and has
    left every path that is not among them as it was. *)
Theorem process_all_footprint env files w :
  (process_all env files w).1 = Ok tt
  /\ length (stdout (process_all env files w).2)
     = (length (stdout w) + length files)%nat
  /\ (length (calls (process_all env files w).2)
      <= length (calls w) + length files)%nat
  /\ (forall p, p ∉ files ->
        fs (process_all env files w).2 !! p = fs w !! p).
Proof. apply process_all_effect. Qed.

(** ** [md_files] and [main] *)



(** ** More on [process_post] *)

Lemma absent_not_in_keys (md : dict) k :
  absent md k = true <-> k ∉ dict_keys md.
Proof.
  unfold absent. induction md as [|[k' v] md IH]; simpl.
  - split; [intros _; apply not_elem_of_nil|done].
  - rewrite not_elem_of_cons. destruct (decide (k' = k)) as [->|Hne].
    + split; [done|]. by intros [? _].
    + rewrite IH. split; [by intros ?; split|by intros [_ ?]].
Qed.

(** Assigning a key keeps the keys that are there in their places, and
    puts a new key last. *)
Lemma dict_keys_set (d : dict) k v :
  dict_keys (dict_set d k v)
  = dict_keys d ++ (if absent d k then [k] else []).
Proof.
  unfold absent. induction d as [|[k' v'] d IH]; simpl; [done|].
  destruct (decide (k' = k)) as [->|Hne]; simpl.
  - by rewrite app_nil_r.
  - by rewrite IH.
Qed.

Lemma absent_set_ne (d : dict) k k' v :
  k ≠ k' -> absent (dict_set d k v) k' = absent d k'.
Proof. intros. unfold absent. by rewrite dict_lookup_set_ne. Qed.

Lemma absent_missing (md : dict) k : absent md k = true -> missing md k.
Proof.
  unfold absent, missing, dict_get. by destruct (dict_lookup md k).
Qed.

Lemma dict_keys_add_created fd (md : dict) :
  dict_keys (add_created fd md)
  = dict_keys md ++ (if absent md Created then [Created] else []).
Proof.
  unfold add_created. destruct (truthy (dict_get md Created)) eqn:E; simpl.
  - destruct (absent md Created) eqn:Ea; [|by rewrite app_nil_r].
    apply absent_missing in Ea. unfold missing in Ea. congruence.
  - apply dict_keys_set.
Qed.

Lemma dict_keys_add_title env fd (md : dict) :
  dict_keys (add_title env fd md).2
  = dict_keys md ++ (if absent md Title then [Title] else []).
Proof.
  unfold add_title. destruct (truthy (dict_get md Title)) eqn:E; simpl.
  - destruct (absent md Title) eqn:Ea; [|by rewrite app_nil_r].
    apply absent_missing in Ea. unfold missing in Ea. congruence.
  - apply dict_keys_set.
Qed.

Lemma absent_add_created fd (md : dict) k :
  k ≠ Created -> absent (add_created fd md) k = absent md k.
Proof. intros. unfold absent. by rewrite add_created_other. Qed.

Lemma absent_add_title env fd (md : dict) k :
  k ≠ Title -> absent (add_title env fd md).2 k = absent md k.
Proof. intros. unfold absent. by rewrite add_title_other. Qed.

(** The keys of the note that [enrich] returns: the keys of the note it
    was given, in their places, followed by those of [Created], [Title] and
    [Description] that the note did not have, in this order.  Keys stay
    unique. *)
Theorem enrich_keys env fd post w post' w' :
  enrich env fd post w = (Ok post', w') ->
  dict_keys (metadata post')
  = dict_keys (metadata post) ++ new_keys (metadata post)
  /\ (NoDup (dict_keys (metadata post)) ->
      NoDup (dict_keys (metadata post'))).
Proof.
  intros H. apply enrich_Ok_inv in H as [_ Hm].
  pose proof Created_neq_Title as Hct.
  pose proof Created_neq_Description as Hcd.
  pose proof Title_neq_Description as Htd.
  set (md := metadata post) in *.
  set (md2 := (add_title env fd (add_created fd md)).2) in *.
  assert (dict_keys md2
          = dict_keys md ++ (if absent md Created then [Created] else [])
              ++ (if absent md Title then [Title] else [])) as K2.
  { unfold md2. rewrite dict_keys_add_title, dict_keys_add_created.
    rewrite absent_add_created by by apply not_eq_sym.
    by rewrite <- app_assoc. }
  assert (absent md2 Description = absent md Description) as A2.
  { unfold md2. rewrite absent_add_title, absent_add_created;
      [done|by apply not_eq_sym..]. }
  assert (dict_keys (metadata post')
          = dict_keys md ++ new_keys md) as K.
  { unfold new_keys, managed_keys. simpl.
    destruct Hm as [(Hd & -> & _)|(_ & d & ->)].
    - rewrite K2. destruct (absent md Description) eqn:Ea.
      + apply absent_missing in A2. unfold missing in A2. congruence.
      + by destruct (absent md Created), (absent md Title).
    - rewrite dict_keys_set, K2, A2, <- !app_assoc.
      by destruct (absent md Created), (absent md Title),
                  (absent md Description). }
  split; [done|]. intros Hnd. rewrite K.
  apply NoDup_app. split; [done|]. split.
  - intros k Hk Hnew. unfold new_keys in Hnew.
    apply list_elem_of_In, filter_In in Hnew as [_ Ha].
    by apply absent_not_in_keys in Ha.
  - unfold new_keys. apply NoDup_ListNoDup, List.NoDup_filter, NoDup_ListNoDup.
    by apply (bool_decide_unpack _).
Qed.

Lemma enrich_keys_witness :
  enrich Sample.env_fixed Sample.note_data Sample.numbered_undescribed
         Sample.world0
  = (Ok (mk_Post [(lit "tags", VStr (lit "conference")); (Title, VInt 2024);
                  (Created, VStr (lit "2024-03-09"));
                  (Description, VStr (lit "Notes taken at PyTexas 2024."))]
                 Sample.note_text),
     mk_World (fs Sample.world0)
              [describe_call Sample.note_text (lit "2024")] [])
  /\ [lit "tags"; Title; Created; Description]
     = [lit "tags"; Title] ++ new_keys (metadata Sample.numbered_undescribed).
Proof.
  assert (enrich Sample.env_fixed Sample.note_data Sample.numbered_undescribed
            Sample.world0
          = (Ok (mk_Post [(lit "tags", VStr (lit "conference"));
                          (Title, VInt 2024);
                          (Created, VStr (lit "2024-03-09"));
                          (Description,
                           VStr (lit "Notes taken at PyTexas 2024."))]
                         Sample.note_text),
             mk_World (fs Sample.world0)
                [describe_call Sample.note_text (lit "2024")] [])) as E.
  { vm_compute. reflexivity. }
  split; [exact E|].
  exact (proj1 (enrich_keys _ _ _ _ _ _ E)).
Defined.

Lemma add_title_truthy env fd (md : dict) :
  stem env (path fd) ≠ [] ->
  truthy (dict_get (add_title env fd md).2 Title) = true.
Proof.
  intros Hs. unfold add_title.
  destruct (truthy (dict_get md Title)) eqn:E; simpl; [done|].
  rewrite dict_get_set_eq. by apply VStr_truthy, create_title_nonempty.
Qed.

(** Once [enrich] has returned a note whose description is not empty, the
    note is final: enriching it again returns it as it is and calls no
    agent, whatever the file data are by then (a new creation date, a new
    name) and whatever the agent would answer. *)
Theorem enrich_stable env fd post w post1 w1 :
  enrich env fd post w = (Ok post1, w1) ->
  stem env (path fd) ≠ [] ->
  truthy (dict_get (metadata post1) Description) = true ->
  forall env' fd' w', enrich env' fd' post1 w' = (Ok post1, w').
Proof.
  intros H Hs Hd env' fd' w'. apply enrich_fully_enriched.
  apply enrich_Ok_inv in H as [_ Hm].
  pose proof (add_title_truthy env fd (add_created fd (metadata post)) Hs)
    as Ht.
  pose proof (add_created_truthy fd (metadata post)) as Hc.
  assert (dict_get (add_title env fd (add_created fd (metadata post))).2
            Created = dict_get (add_created fd (metadata post)) Created)
    as Hc2.
  { unfold dict_get. rewrite add_title_other; [done|apply Created_neq_Title]. }
  rewrite <- Hc2 in Hc.
  unfold fully_enriched, managed_keys. rewrite !Forall_cons.
  destruct Hm as [(_ & E & _)|(_ & d & E)]; rewrite E in Hd |- *.
  - by repeat split.
  - rewrite !dict_get_set_ne
      by (apply not_eq_sym;
          first [apply Created_neq_Description|apply Title_neq_Description]).
    by repeat split.
Qed.

Lemma enrich_stable_witness :
  exists post1 w1,
    enrich Sample.env_fixed Sample.note_data Sample.blank_post Sample.world0
      = (Ok post1, w1)
    /\ enrich Sample.env_failing
              (mk_FileData [] (lit "/vault/renamed.md") (mk_datetime 2025 1 1))
              post1 Sample.readonly_world
       = (Ok post1, Sample.readonly_world).
Proof.
  eexists _, _. split; [vm_compute; reflexivity|].
  apply (enrich_stable Sample.env_fixed Sample.note_data Sample.blank_post
           Sample.world0 _ _ eq_refl).
  - discriminate.
  - reflexivity.
Defined.

(** [enrich] fails in one way only: the description is missing and the
    agent fails, and then with the exception of the agent.  A note that has
    a description is enriched without the agent. *)
Theorem enrich_raises_iff env fd post w e :
  (enrich env fd post w).1 = Raise e <->
  missing (metadata post) Description
  /\ runner_run env (calls w) (summarizer describe_instructions)
       (describe_prompt (text fd) (effective_title env fd (metadata post)))
     = Raise e.
Proof.
  rewrite enrich_unfold. simpl. rewrite enrich_description_check.
  unfold missing.
  destruct (truthy (dict_get (metadata post) Description)); simpl.
  - split; [done|]. by intros [? _].
  - destruct (runner_run env _ _ _) as [d|e']; simpl.
    + split; [done|]. by intros [_ ?].
    + split; [by intros [= ->]|by intros [_ [= ->]]].
Qed.

(** ** The format of [Created] *)

Lemma zero_pad_ok (w : nat) (bound n : N) :
  forallb (pad_ok w) (N_below bound) = true ->
  n < bound ->
  is_numeral w (zero_pad w n) = true /\ digits_value (zero_pad w n) = n.
Proof.
  intros Hall Hn. rewrite forallb_forall in Hall.
  specialize (Hall n). unfold pad_ok in Hall.
  rewrite andb_true_iff, N.eqb_eq in Hall. apply Hall.
  unfold N_below. apply in_map_iff. exists (N.to_nat n).
  split; [lia|]. apply in_seq. lia.
Qed.

(** The [Created] that [enrich] gives to a note without one reads
    [YYYY-MM-DD]: four digits that denote the year of the creation date of
    the file, a dash, two digits for its month, a dash, two digits for its
    day. *)
Theorem enrich_created_format env fd post w post' w' :
  enrich env fd post w = (Ok post', w') ->
  missing (metadata post) Created ->
  1000 <= year (creation_date fd) <= 9999 ->
  1 <= month (creation_date fd) <= 12 ->
  1 <= day (creation_date fd) <= 31 ->
  exists ys ms ds,
    dict_lookup (metadata post') Created
    = Some (VStr (ys ++ [45] ++ ms ++ [45] ++ ds))
    /\ is_numeral 4 ys = true /\ digits_value ys = year (creation_date fd)
    /\ is_numeral 2 ms = true /\ digits_value ms = month (creation_date fd)
    /\ is_numeral 2 ds = true /\ digits_value ds = day (creation_date fd).
Proof.
  intros H Hm Hy Hmo Hd.
  exists (zero_pad 4 (year (creation_date fd))),
         (zero_pad 2 (month (creation_date fd))),
         (zero_pad 2 (day (creation_date fd))).
  assert (year (creation_date fd) < 10000) as By by lia.
  assert (month (creation_date fd) < 100) as Bm by lia.
  assert (day (creation_date fd) < 100) as Bd by lia.
  clear Hy Hmo Hd.
  assert (forallb (pad_ok 4) (N_below 10000) = true) as H4
    by (vm_compute; reflexivity).
  assert (forallb (pad_ok 2) (N_below 100) = true) as H2
    by (vm_compute; reflexivity).
  destruct (zero_pad_ok 4 10000 (year (creation_date fd)) H4 By) as [? ?].
  destruct (zero_pad_ok 2 100 (month (creation_date fd)) H2 Bm) as [? ?].
  destruct (zero_pad_ok 2 100 (day (creation_date fd)) H2 Bd) as [? ?].
  clear H4 H2.
  split; [|done].
  apply enrich_Ok_inv in H as [_ Hmd].
  assert (dict_lookup (add_title env fd (add_created fd (metadata post))).2
            Created
          = Some (VStr (strftime_ymd (creation_date fd)))) as L.
  { rewrite add_title_other by apply Created_neq_Title.
    rewrite add_created_missing by done. apply dict_lookup_set_eq. }
  destruct Hmd as [(_ & -> & _)|(_ & d & ->)]; [done|].
  rewrite dict_lookup_set_ne; [done|].
  apply not_eq_sym, Created_neq_Description.
Qed.

Lemma enrich_created_format_witness :
  exists post' w',
    enrich Sample.env_fixed Sample.note_data Sample.blank_post Sample.world0
      = (Ok post', w')
    /\ exists ys ms ds,
         dict_lookup (metadata post') Created
         = Some (VStr (ys ++ [45] ++ ms ++ [45] ++ ds))
         /\ digits_value ys = 2024 /\ digits_value ms = 3
         /\ digits_value ds = 9.
Proof.
  eexists _, _. split; [vm_compute; reflexivity|].
  destruct (enrich_created_format Sample.env_fixed Sample.note_data
              Sample.blank_post Sample.world0 _ _ eq_refl)
    as (ys & ms & ds & L & _ & Hy & _ & Hm & _ & Hd).
  - reflexivity.
  - simpl. lia.
  - simpl. lia.
  - simpl. lia.
  - exists ys, ms, ds. split; [exact L|]. split; [exact Hy|].
    split; [exact Hm|exact Hd].
Defined.

(** ** The prompts of [describe_text] and [summarize_text] *)

(** Of the text of a note, the agent sees the first 2000 characters and
    nothing more: a prompt is 64 characters (65 for [summarize_text]), the
    title and at most 2000 characters of text long, and two texts that agree
    on their first 2000 characters give the same run, with the same call
    and the same result. *)
Theorem prompt_excerpt env text1 text2 title w :
  length (describe_prompt text1 title)
  = (64 + length title + min 2000 (length text1))%nat
  /\ length (summarize_prompt text1 title)
     = (65 + length title + min 2000 (length text1))%nat
  /\ (firstn 2000 text1 = firstn 2000 text2 ->
      describe_text env text1 title w = describe_text env text2 title w
      /\ summarize_text env text1 title w = summarize_text env text2 title w).
Proof.
  unfold describe_text, summarize_text, describe_prompt, summarize_prompt,
    slice_to.
  assert (length (lit "Please describe the note titled '") = 33%nat) as L1
    by reflexivity.
  assert (length (lit "Please summarize the note titled '") = 34%nat) as L2
    by reflexivity.
  assert (length (lit "' with the following content:") = 29%nat) as L3
    by reflexivity.
  split; [|split].
  - rewrite !length_app, length_firstn, L1, L3. simpl length.
    generalize (min 2000 (length text1)). intros. lia.
  - rewrite !length_app, length_firstn, L2, L3. simpl length.
    generalize (min 2000 (length text1)). intros. lia.
  - by intros ->.
Qed.

Lemma prompt_excerpt_witness :
  describe_text Sample.env_fixed (repeat 120 2000 ++ lit "first ending")
                (lit "Long note") Sample.world0
  = describe_text Sample.env_fixed (repeat 120 2000 ++ lit "second ending")
                  (lit "Long note") Sample.world0.
Proof.
  apply (prompt_excerpt Sample.env_fixed
           (repeat 120 2000 ++ lit "first ending")
           (repeat 120 2000 ++ lit "second ending")).
  vm_compute. reflexivity.
Defined.

(** ** More on [create_title] *)

Ltac ascii_cases :=
  unfold ascii_isalpha, ascii_toupper, ascii_tolower, ascii_islower,
    ascii_isupper, is_ascii in *;
  repeat match goal with
         | |- context [N.leb ?a ?b] =>
             destruct (N.leb_spec a b); simpl in *
         | |- context [N.ltb ?a ?b] =>
             destruct (N.ltb_spec a b); simpl in *
         | H : context [N.leb ?a ?b] |- _ =>
             destruct (N.leb_spec a b); simpl in *
         | H : context [N.ltb ?a ?b] |- _ =>
             destruct (N.ltb_spec a b); simpl in *
         end;
  try done; try lia; try (exfalso; lia).

Lemma ascii_case_facts c :
  ascii_isalpha (ascii_tolower c) = ascii_isalpha c
  /\ ascii_isalpha (ascii_toupper c) = ascii_isalpha c
  /\ ascii_tolower (ascii_tolower c) = ascii_tolower c
  /\ ascii_toupper (ascii_toupper c) = ascii_toupper c
  /\ ascii_toupper (ascii_tolower c) = ascii_toupper c.
Proof. repeat split; ascii_cases. Qed.

Lemma ascii_case_is_ascii c :
  is_ascii c = true ->
  is_ascii (ascii_tolower c) = true /\ is_ascii (ascii_toupper c) = true.
Proof. intros H. split; ascii_cases. Qed.

Lemma ascii_title_tolower prev (s : pystr) :
  ascii_title prev (map ascii_tolower s) = ascii_title prev s.
Proof.
  revert prev. induction s as [|c s IH]; intros prev; [done|].
  cbn [map ascii_title].
  destruct (ascii_case_facts c) as (Ha & _ & Hl & _ & Hu).
  by rewrite Ha, Hl, Hu, IH.
Qed.

Lemma ascii_title_idem prev (s : pystr) :
  ascii_title prev (ascii_title prev s) = ascii_title prev s.
Proof.
  revert prev. induction s as [|c s IH]; intros prev; [done|].
  cbn [ascii_title].
  destruct (ascii_case_facts c) as (Ha1 & Ha2 & Hl & Hu & _).
  destruct prev; by rewrite ?Ha1, ?Ha2, ?Hl, ?Hu, IH.
Qed.

Lemma ascii_title_is_ascii prev (s : pystr) :
  Forall (fun c => is_ascii c = true) s ->
  Forall (fun c => is_ascii c = true) (ascii_title prev s).
Proof.
  intros H. revert prev. induction H as [|c s Hc Hs IH]; intros prev; simpl;
    constructor; [|done].
  destruct (ascii_case_is_ascii c Hc). by destruct prev.
Qed.

Lemma replace_is_ascii (s : pystr) :
  Forall (fun c => is_ascii c = true) s ->
  Forall (fun c => is_ascii c = true) (replace 95 32 s).
Proof.
  intros H. unfold replace. apply Forall_fmap.
  eapply Forall_impl; [exact H|]. intros c Hc. simpl.
  by destruct (c =? 95).
Qed.

Lemma replace_idem (s : pystr) :
  replace 95 32 (replace 95 32 s) = replace 95 32 s.
Proof.
  unfold replace. rewrite <- list_fmap_compose. apply list_fmap_ext.
  intros _ c _. simpl. destruct (N.eqb_spec c 95) as [->|Hc]; [done|].
  by rewrite (proj2 (N.eqb_neq c 95) Hc).
Qed.

Lemma create_title_ascii env fd :
  Forall (fun c => is_ascii c = true) (stem env (path fd)) ->
  create_title env fd = replace 95 32 (ascii_title false (stem env (path fd))).
Proof. intros H. unfold create_title, title. by rewrite do_title_ascii. Qed.

(** A character that is not a letter keeps its place under [title]. *)
Lemma ascii_title_lookup_other prev (s : pystr) (i : nat) c :
  s !! i = Some c -> ascii_isalpha c = false ->
  ascii_title prev s !! i = Some c.
Proof.
  revert prev i. induction s as [|c0 s IH]; intros prev [|i]; simpl; try done.
  - intros [= ->] Hc. destruct (ascii_not_alpha_fixed c Hc) as [-> ->].
    by destruct prev.
  - apply IH.
Qed.

(** The derived title has no underscore.  On an ASCII stem it is as long
    as the stem and ASCII too, and every character of the stem that is
    neither a letter nor an underscore (a digit, a dash, a space) is found at
    its place in the title. *)
Theorem create_title_shape env fd :
  (95 ∉ create_title env fd)
  /\ (Forall (fun c => is_ascii c = true) (stem env (path fd)) ->
      length (create_title env fd) = length (stem env (path fd))
      /\ Forall (fun c => is_ascii c = true) (create_title env fd)
      /\ forall (i : nat) c,
           stem env (path fd) !! i = Some c ->
           ascii_isalpha c = false -> c ≠ 95 ->
           create_title env fd !! i = Some c).
Proof.
  split.
  - unfold create_title, replace. intros H.
    apply list_elem_of_fmap in H as (c & Hc & _).
    destruct (N.eqb_spec c 95); [done|]. by symmetry in Hc.
  - intros Ha. rewrite create_title_ascii by done. split; [|split].
    + unfold replace. rewrite length_map.
      clear Ha. generalize false.
      induction (stem env (path fd)) as [|c s IH]; intros b; simpl; [done|].
      by rewrite IH.
    + by apply replace_is_ascii, ascii_title_is_ascii.
    + intros i c Hi Hc Hne. unfold replace. rewrite list_lookup_fmap.
      rewrite (ascii_title_lookup_other _ _ _ _ Hi Hc). simpl.
      by rewrite (proj2 (N.eqb_neq c 95) Hne).
Qed.

Lemma create_title_shape_witness :
  Forall (fun c => is_ascii c = true)
         (stem Sample.env_fixed (path Sample.note_data))
  /\ length (create_title Sample.env_fixed Sample.note_data) = 12%nat
  /\ create_title Sample.env_fixed Sample.note_data !! 8%nat = Some 50.
Proof.
  assert (Forall (fun c => is_ascii c = true)
                 (stem Sample.env_fixed (path Sample.note_data))) as Ha.
  { change (stem Sample.env_fixed (path Sample.note_data))
      with (lit "pytexas_2024"). repeat constructor. }
  destruct (create_title_shape Sample.env_fixed Sample.note_data)
    as [_ H]. destruct (H Ha) as (Hl & _ & Hi).
  split; [exact Ha|]. split; [exact Hl|].
  apply Hi; [reflexivity|reflexivity|discriminate].
Defined.

(** The derived title does not depend on the case of the letters of the
    file name: two ASCII stems that are equal up to case give the same
    title. *)
Theorem create_title_ignores_case env fd1 fd2 :
  Forall (fun c => is_ascii c = true) (stem env (path fd1)) ->
  Forall (fun c => is_ascii c = true) (stem env (path fd2)) ->
  map ascii_tolower (stem env (path fd1))
  = map ascii_tolower (stem env (path fd2)) ->
  create_title env fd1 = create_title env fd2.
Proof.
  intros H1 H2 E. rewrite !create_title_ascii by done.
  by rewrite <- (ascii_title_tolower false (stem env (path fd1))),
             <- (ascii_title_tolower false (stem env (path fd2))), E.
Qed.

Lemma create_title_ignores_case_witness :
  create_title Sample.env_fixed
    (mk_FileData [] (lit "/vault/PyTexas_2024.md") Sample.today)
  = create_title Sample.env_fixed
      (mk_FileData [] (lit "/vault/PYTEXAS_2024.md") Sample.today).
Proof.
  apply create_title_ignores_case.
  - change (Forall (fun c => is_ascii c = true) (lit "PyTexas_2024")).
    repeat constructor.
  - change (Forall (fun c => is_ascii c = true) (lit "PYTEXAS_2024")).
    repeat constructor.
  - reflexivity.
Defined.

(** Deriving a title is idempotent: a file whose stem is a derived title
    gets that title. *)
Theorem create_title_idempotent env fd fd' :
  Forall (fun c => is_ascii c = true) (stem env (path fd)) ->
  stem env (path fd') = create_title env fd ->
  create_title env fd' = create_title env fd.
Proof.
  intros Ha E.
  assert (Forall (fun c => is_ascii c = true) (stem env (path fd'))) as Ha'.
  { rewrite E, create_title_ascii by done.
    by apply replace_is_ascii, ascii_title_is_ascii. }
  rewrite (create_title_ascii env fd') by done.
  rewrite E, create_title_ascii by done.
  by rewrite <- replace_ascii_title, ascii_title_idem, replace_idem.
Qed.

Lemma create_title_idempotent_witness :
  create_title Sample.env_fixed
    (mk_FileData [] (lit "/vault/Pytexas 2024.md") Sample.today)
  = create_title Sample.env_fixed Sample.note_data.
Proof.
  apply create_title_idempotent.
  - change (Forall (fun c => is_ascii c = true) (lit "pytexas_2024")).
    repeat constructor.
  - vm_compute. reflexivity.
Defined.

(** ** What [process_post] leaves behind *)

(** [process_post] reads and asks, but does not write: the files and the
    printed lines are as before, whether it returns or raises, and the
    agent has been called at most once. *)
Theorem process_post_read_only env fd w :
  fs (process_post env fd w).2 = fs w
  /\ stdout (process_post env fd w).2 = stdout w
  /\ exists l, calls (process_post env fd w).2 = calls w ++ l
               /\ (length l <= 1)%nat.
Proof.
  destruct (process_post_world env fd w) as [Hf Hs].
  split; [done|]. split; [done|].
  unfold process_post, mbind, M_bind, lift.
  destruct (frontmatter_loads env (text fd)) as [post|e]; simpl.
  - rewrite enrich_calls. eexists. split; [done|].
    destruct (truthy _); simpl; lia.
  - exists []. split; [by rewrite app_nil_r|simpl; lia].
Qed.

Lemma add_title_present env fd (md : dict) :
  is_Some (dict_lookup (add_title env fd md).2 Title).
Proof.
  unfold add_title. destruct (truthy (dict_get md Title)) eqn:E; simpl.
  - apply truthy_get_lookup in E as (v & -> & _). by eexists.
  - rewrite dict_lookup_set_eq. by eexists.
Qed.

(** Whatever note [enrich] is given, the note it returns has the three
    keys; [Created] is not empty, and neither is [Title] when the file name
    has a stem. *)
Theorem enrich_sets_all_keys env fd post w post' w' :
  enrich env fd post w = (Ok post', w') ->
  Forall (fun k => is_Some (dict_lookup (metadata post') k)) managed_keys
  /\ truthy (dict_get (metadata post') Created) = true
  /\ (stem env (path fd) ≠ [] ->
      truthy (dict_get (metadata post') Title) = true).
Proof.
  intros H. apply enrich_Ok_inv in H as [_ Hm].
  set (md2 := (add_title env fd (add_created fd (metadata post))).2) in *.
  assert (truthy (dict_get md2 Created) = true) as Hc.
  { unfold md2, dict_get.
    rewrite add_title_other by apply Created_neq_Title.
    apply add_created_truthy. }
  pose proof (add_title_present env fd (add_created fd (metadata post)))
    as Ht. fold md2 in Ht.
  pose proof (add_title_truthy env fd (add_created fd (metadata post)))
    as Htt. fold md2 in Htt.
  unfold managed_keys. rewrite !Forall_cons.
  destruct Hm as [(Hd & -> & _)|(_ & d & ->)].
  - apply truthy_get_lookup in Hd as (vd & Hd & _).
    pose proof Hc as Hc'. apply truthy_get_lookup in Hc' as (vc & Hc' & _).
    rewrite Hc', Hd. repeat split; eauto.
  - assert (Created ≠ Description) by apply Created_neq_Description.
    assert (Title ≠ Description) by apply Title_neq_Description.
    rewrite !dict_get_set_ne by by apply not_eq_sym.
    rewrite !dict_lookup_set_ne by by apply not_eq_sym.
    rewrite dict_lookup_set_eq.
    pose proof Hc as Hc'. apply truthy_get_lookup in Hc' as (vc & Hc' & _).
    rewrite Hc'. repeat split; eauto.
Qed.

Lemma enrich_sets_all_keys_witness :
  exists post' w',
    enrich Sample.env_empty_first Sample.note_data
           Sample.numbered_undescribed Sample.world0 = (Ok post', w')
    /\ Forall (fun k => is_Some (dict_lookup (metadata post') k))
              managed_keys.
Proof.
  eexists _, _. split; [vm_compute; reflexivity|].
  apply (enrich_sets_all_keys Sample.env_empty_first Sample.note_data
           Sample.numbered_undescribed Sample.world0 _ _ eq_refl).
Defined.
